(** * Typing Exam Pro: the backend actor (src/backend/main.mo)

    A shallow embedding of the Motoko actor that keeps user profiles,
    the mobile index, practice passages and test results, followed by the
    properties its specification states about it.

    Conventions of the embedding:
    - [Text] is a list of Unicode code points ([Char.toNat32]);
    - the four [Map]s of the actor are [gmap]s, [Map.add] is insert,
      [Map.remove] is delete, [Map.containsKey] is [is_Some (_ !! _)];
    - a public method is a computation in the monad [M]: it receives the
      actor state and either returns a value with the new state or traps;
      a trapped message is rolled back, which [run] expresses;
    - [Time.now ()] is constant during one message and is passed to the
      methods that read it as the argument [now]. *)

From Stdlib Require Import ZArith NArith List Ascii String Sorting.Sorted.
From Stdlib Require Import Decimal DecimalString DecimalZ.
From stdpp Require Import base tactics option list sorting gmap strings fin_maps.

#[local] Open Scope N_scope.

(** ** Text *)

Abbreviation Char := N (only parsing).
Abbreviation Text := (list N) (only parsing).
Abbreviation Principal := string (only parsing).

(** A Motoko text literal (the literals of the actor are ASCII). *)
Definition text (s : string) : Text :=
  List.map N_of_ascii (list_ascii_of_string s).

(** [Int.toText] of mo:core: decimal digits, a leading minus sign for a
    negative number, ["0"] for zero. *)
Definition Int_toText (x : Z) : Text :=
  text (NilEmpty.string_of_int (Z.to_int x)).

(** [Text.compare]: lexicographic order on the code points. *)
Fixpoint Text_compare (a b : Text) : comparison :=
  match a, b with
  | [], [] => Eq
  | [], _ :: _ => Lt
  | _ :: _, [] => Gt
  | x :: a', y :: b' =>
      match N.compare x y with
      | Eq => Text_compare a' b'
      | c => c
      end
  end.

(** ** Records of the actor *)

Module UserProfile.
Record t := mk {
  name : Text;
  mobile : Text;
  passwordHash : Text;
  sessionId : Text;
}.
(** [{ profile with sessionId }] *)
Definition with_sessionId (p : t) (sid : Text) : t :=
  {| name := name p; mobile := mobile p;
     passwordHash := passwordHash p; sessionId := sid |}.
End UserProfile.

Module Passage.
Record t := mk {
  id : Text;
  title : Text;
  content : Text;
  timeMinutes : N;
}.
Definition compare (p1 p2 : t) : comparison :=
  Text_compare (id p1) (id p2).
End Passage.

Module TestResult.
Record t := mk {
  id : Text;
  userName : Text;
  userMobile : Text;
  passageTitle : Text;
  wpm : N;
  accuracy : N;
  mistakes : N;
  timestamp : Z;
}.
Definition compareByTime (r1 r2 : t) : comparison :=
  Z.compare (timestamp r1) (timestamp r2).
End TestResult.

#[global] Instance UserProfile_eq_dec : EqDecision UserProfile.t.
Proof. solve_decision. Defined.
#[global] Instance Passage_eq_dec : EqDecision Passage.t.
Proof. solve_decision. Defined.
#[global] Instance TestResult_eq_dec : EqDecision TestResult.t.
Proof. solve_decision. Defined.

(** ** Access control (imported module authorization/access-control) *)

Inductive UserRole := admin | user | guest.

#[global] Instance UserRole_eq_dec : EqDecision UserRole.
Proof. solve_decision. Defined.

(** ** Actor state *)

Record State := mkState {
  userProfiles : gmap string UserProfile.t;
  mobileToUser : gmap (list N) string;
  passages : gmap (list N) Passage.t;
  testResults : gmap (list N) TestResult.t;
  accessControlState : gmap string UserRole;
}.

Definition initial : State :=
  {| userProfiles := ∅; mobileToUser := ∅; passages := ∅;
     testResults := ∅; accessControlState := ∅ |}.

Definition set_userProfiles (f : gmap string UserProfile.t -> gmap string UserProfile.t)
    (s : State) : State :=
  {| userProfiles := f (userProfiles s); mobileToUser := mobileToUser s;
     passages := passages s; testResults := testResults s;
     accessControlState := accessControlState s |}.

Definition set_mobileToUser (f : gmap (list N) string -> gmap (list N) string)
    (s : State) : State :=
  {| userProfiles := userProfiles s; mobileToUser := f (mobileToUser s);
     passages := passages s; testResults := testResults s;
     accessControlState := accessControlState s |}.

Definition set_passages (f : gmap (list N) Passage.t -> gmap (list N) Passage.t)
    (s : State) : State :=
  {| userProfiles := userProfiles s; mobileToUser := mobileToUser s;
     passages := f (passages s); testResults := testResults s;
     accessControlState := accessControlState s |}.

Definition set_testResults (f : gmap (list N) TestResult.t -> gmap (list N) TestResult.t)
    (s : State) : State :=
  {| userProfiles := userProfiles s; mobileToUser := mobileToUser s;
     passages := passages s; testResults := f (testResults s);
     accessControlState := accessControlState s |}.

Definition set_accessControlState (f : gmap string UserRole -> gmap string UserRole)
    (s : State) : State :=
  {| userProfiles := userProfiles s; mobileToUser := mobileToUser s;
     passages := passages s; testResults := testResults s;
     accessControlState := f (accessControlState s) |}.

(** ** The monad of a message: state passing with traps *)

Inductive Result (A : Type) : Type :=
  | Ok (a : A) (s : State)
  | Trap (msg : string).
Arguments Ok {A} a s.
Arguments Trap {A} msg.

Definition M (A : Type) : Type := State -> Result A.

#[global] Instance M_ret : MRet M := fun A a s => Ok a s.
#[global] Instance M_bind : MBind M := fun A B f m s =>
  match m s with
  | Ok a s' => f a s'
  | Trap msg => Trap msg
  end.

Definition getState : M State := fun s => Ok s s.
Definition modify (f : State -> State) : M unit := fun s => Ok tt (f s).
(** [Runtime.trap] *)
Definition trap {A} (msg : string) : M A := fun _ => Trap msg.
(** [if (c) { Runtime.trap (msg) }] *)
Definition trap_if (c : bool) (msg : string) : M unit :=
  if c then trap msg else mret tt.

(** State after a message: a trap rolls every change back. *)
Definition run {A} (m : M A) (s : State) : State :=
  match m s with
  | Ok _ s' => s'
  | Trap _ => s
  end.

Definition containsKey `{Countable K} {V} (m : gmap K V) (k : K) : bool :=
  bool_decide (is_Some (m !! k)).

Definition Text_eqb (a b : Text) : bool := bool_decide (a = b).

Module AccessControl.

(** Modelled from the spec: the module authorization/access-control is
    imported by the actor but is not among the sources. A caller with no
    assignment is a guest. *)
Definition getUserRole (st : gmap string UserRole) (caller : Principal) : UserRole :=
  default guest (st !! caller).

(** Modelled from the spec: [isAdmin] holds iff the assignment is exactly
    [admin]. *)
Definition isAdmin (st : gmap string UserRole) (caller : Principal) : bool :=
  bool_decide (getUserRole st caller = admin).

(** Modelled from the spec: the [admin] capability needs an admin
    assignment, the [user] capability a user or admin assignment, and
    [guest] protects nothing. *)
Definition hasPermission (st : gmap string UserRole) (caller : Principal)
    (required : UserRole) : bool :=
  match required with
  | admin => isAdmin st caller
  | user => bool_decide (getUserRole st caller = user) || isAdmin st caller
  | guest => true
  end.

(** Modelled from the spec: [assignRole] writes or overwrites the
    assignment of [target] and does not check the grantor again. *)
Definition assignRole (st : gmap string UserRole) (grantor target : Principal)
    (role : UserRole) : gmap string UserRole :=
  <[target := role]> st.

End AccessControl.

(** ** Private helper of the actor *)

Definition hash_char (code : Char) : Char :=
  let newCode := (code + 3) mod 126 in
  if newCode <? 33 then 33 else newCode.

Definition hashPassword (password : Text) : Text :=
  List.map hash_char password.

(** ** Public methods *)

Section Methods.
Variable caller : Principal.

Definition hasPermission (role : UserRole) : M bool :=
  s ← getState; mret (AccessControl.hasPermission (accessControlState s) caller role).

Definition isAdmin : M bool :=
  s ← getState; mret (AccessControl.isAdmin (accessControlState s) caller).

Definition assignRole (target : Principal) (role : UserRole) : M unit :=
  modify (set_accessControlState
            (fun st => AccessControl.assignRole st caller target role)).

Definition getCallerUserProfile : M (option UserProfile.t) :=
  ok ← hasPermission user;
  trap_if (negb ok) "Unauthorized: Only users can view profiles";;
  s ← getState; mret (userProfiles s !! caller).

Definition getUserProfile (u : Principal) : M (option UserProfile.t) :=
  adm ← isAdmin;
  trap_if (negb (bool_decide (caller = u)) && negb adm)
          "Unauthorized: Can only view your own profile";;
  s ← getState; mret (userProfiles s !! u).

Definition saveCallerUserProfile (profile : UserProfile.t) : M unit :=
  ok ← hasPermission user;
  trap_if (negb ok) "Unauthorized: Only users can save profiles";;
  modify (set_userProfiles <[caller := profile]>).

Definition registerUser (name mobile password : Text) : M Text :=
  s ← getState;
  trap_if (containsKey (mobileToUser s) mobile) "Mobile number already registered";;
  let userProfile :=
    {| UserProfile.name := name;
       UserProfile.mobile := mobile;
       UserProfile.passwordHash := hashPassword password;
       UserProfile.sessionId := [] |} in
  modify (set_userProfiles <[caller := userProfile]>);;
  modify (set_mobileToUser <[mobile := caller]>);;
  assignRole caller user;;
  mret (text "OK").

(** The [#ok] payload of [login]. *)
Record LoginOk := mkLoginOk {
  login_name : Text;
  login_mobile : Text;
  login_sessionId : Text;
}.

Definition login (now : Z) (mobile password : Text) : M LoginOk :=
  s ← getState;
  match mobileToUser s !! mobile with
  | None => trap "User does not exist"
  | Some userPrincipal =>
      match userProfiles s !! userPrincipal with
      | None => trap "User profile not found"
      | Some profile =>
          trap_if (negb (Text_eqb (UserProfile.passwordHash profile)
                                  (hashPassword password)))
                  "Invalid password";;
          let sessionId :=
            hashPassword (UserProfile.mobile profile ++ Int_toText now) in
          let updatedProfile := UserProfile.with_sessionId profile sessionId in
          modify (set_userProfiles <[userPrincipal := updatedProfile]>);;
          mret {| login_name := UserProfile.name profile;
                  login_mobile := UserProfile.mobile profile;
                  login_sessionId := sessionId |}
      end
  end.

Definition checkSessionValid (mobile sessionId : Text) : M bool :=
  s ← getState;
  match mobileToUser s !! mobile with
  | None => mret false
  | Some userPrincipal =>
      match userProfiles s !! userPrincipal with
      | None => mret false
      | Some profile => mret (Text_eqb (UserProfile.sessionId profile) sessionId)
      end
  end.

Definition logout (mobile : Text) : M unit :=
  s ← getState;
  match mobileToUser s !! mobile with
  | None => trap "User does not exist"
  | Some userPrincipal =>
      adm ← isAdmin;
      trap_if (negb (bool_decide (caller = userPrincipal)) && negb adm)
              "Unauthorized: Can only logout yourself";;
      match userProfiles s !! userPrincipal with
      | None => trap "User profile not found"
      | Some profile =>
          let updatedProfile := UserProfile.with_sessionId profile [] in
          modify (set_userProfiles <[userPrincipal := updatedProfile]>)
      end
  end.

End Methods.

(** [m.values ()]: the values of an ordered map, in ascending key order. *)
Definition Map_values {V} (m : gmap (list N) V) : list V :=
  (merge_sort (fun a b => Text_compare a.1 b.1 <> Gt) (map_to_list m)).*2.

(** [a.sort (compare)] of mo:core Array, a stable sort: elements that
    compare equal keep the order they have in [a]. [sortInsert] puts [x]
    in front of the first element that is not smaller than it. *)
Fixpoint sortInsert {A} (compare : A -> A -> comparison) (x : A) (l : list A)
    : list A :=
  match l with
  | [] => [x]
  | y :: l' =>
      match compare x y with
      | Gt => y :: sortInsert compare x l'
      | _ => x :: l
      end
  end.

Definition Array_sort {A} (compare : A -> A -> comparison) (a : list A) : list A :=
  foldr (sortInsert compare) [] a.

Definition passagesToAdd : list (Text * Text * N) :=
  [ (text "The Beauty of Nature",
     text "Nature is a magnificent tapestry of life that surrounds us every day. From the gentle sway of trees in the wind to the vibrant colors of flowers in bloom, nature offers endless beauty and inspiration. The sounds of birds chirping, the smell of fresh rain, and the sight of a clear blue sky all contribute to the peacefulness that nature provides. Spending time outdoors can help reduce stress, improve mood, and foster a sense of connection to the world around us. Whether hiking through mountains, walking along a beach, or simply sitting in a park, immersing oneself in nature is a reminder of the wonders that exist beyond our daily routines.",
     10);
    (text "Advancements in Technology",
     text "Technology has rapidly transformed the way we live, work, and communicate. From smartphones and computers to smart homes and artificial intelligence, innovations continue to shape our daily experiences. The internet has made information accessible to nearly everyone, enabling learning and collaboration across the globe. While technology brings many benefits, it also presents challenges such as privacy concerns and digital addiction. Balancing the use of technology with real-world interactions is essential for maintaining a healthy lifestyle. As new inventions emerge, it is important to adapt and use technology responsibly to improve our lives and society.",
     10);
    (text "A Journey Through History",
     text "History is a record of human experiences, achievements, and lessons learned over centuries. It teaches us about cultures, conflicts, and the evolution of societies. Studying history helps us understand the origins of traditions, beliefs, and systems that shape the present. From ancient civilizations to modern times, history is filled with stories of triumph and tragedy. By learning from the past, we can make informed decisions and avoid repeating mistakes. History also highlights the resilience and creativity of people throughout the ages. Embracing history allows us to appreciate the progress made and encourages continued growth for future generations.",
     10) ].

Section PassageMethods.
Variable caller : Principal.

Definition getPassages : M (list Passage.t) :=
  ok ← hasPermission caller user;
  trap_if (negb ok) "Unauthorized: Only users can view passages";;
  s ← getState; mret (Array_sort Passage.compare (Map_values (passages s))).

Definition addPassage (now : Z) (title content : Text) (timeMinutes : N) : M Text :=
  ok ← hasPermission caller admin;
  trap_if (negb ok) "Unauthorized: Only admins can add passages";;
  let id := hashPassword (title ++ Int_toText now) in
  let passage :=
    {| Passage.id := id; Passage.title := title;
       Passage.content := content; Passage.timeMinutes := timeMinutes |} in
  modify (set_passages <[id := passage]>);;
  mret id.

(** The result type [{ #ok; #err : Text }] of the two passage mutations. *)
Inductive OkErr := ok_ | err_ (msg : Text).

Definition updatePassage (id title content : Text) (timeMinutes : N) : M OkErr :=
  ok ← hasPermission caller admin;
  trap_if (negb ok) "Unauthorized: Only admins can update passages";;
  s ← getState;
  match passages s !! id with
  | None => trap "Passage does not exist"
  | Some existing =>
      let updatedPassage :=
        {| Passage.id := Passage.id existing; Passage.title := title;
           Passage.content := content; Passage.timeMinutes := timeMinutes |} in
      modify (set_passages <[id := updatedPassage]>);;
      mret ok_
  end.

Definition deletePassage (id : Text) : M OkErr :=
  ok ← hasPermission caller admin;
  trap_if (negb ok) "Unauthorized: Only admins can delete passages";;
  s ← getState;
  trap_if (negb (containsKey (passages s) id)) "Passage does not exist";;
  modify (set_passages (delete id));;
  mret ok_.

Definition submitTestResult (now : Z) (userName userMobile passageTitle : Text)
    (wpm accuracy mistakes : N) : M unit :=
  ok ← hasPermission caller user;
  trap_if (negb ok) "Unauthorized: Only users can submit test results";;
  let id := hashPassword (userMobile ++ Int_toText now) in
  let testResult :=
    {| TestResult.id := id; TestResult.userName := userName;
       TestResult.userMobile := userMobile;
       TestResult.passageTitle := passageTitle;
       TestResult.wpm := wpm; TestResult.accuracy := accuracy;
       TestResult.mistakes := mistakes; TestResult.timestamp := now |} in
  modify (set_testResults <[id := testResult]>).

Definition getTestResults : M (list TestResult.t) :=
  ok ← hasPermission caller user;
  trap_if (negb ok) "Unauthorized: Only users can view test results";;
  s ← getState; mret (Array_sort TestResult.compareByTime (Map_values (testResults s))).

(** The body of the [forEach] of [seedData], for one tuple. *)
Definition seedOne (now : Z) (entry : Text * Text * N) : M unit :=
  let '(title, content, time) := entry in
  let id := hashPassword (title ++ Int_toText now) in
  let passage :=
    {| Passage.id := id; Passage.title := title;
       Passage.content := content; Passage.timeMinutes := time |} in
  modify (set_passages <[id := passage]>).

Fixpoint forEach {A} (f : A -> M unit) (l : list A) : M unit :=
  match l with
  | [] => mret tt
  | x :: l' => f x;; forEach f l'
  end.

Definition seedData (now : Z) : M unit :=
  ok ← hasPermission caller admin;
  trap_if (negb ok) "Unauthorized: Only admins can seed data";;
  s ← getState;
  let existingPassages := size (passages s) in
  if (0 <? existingPassages)%nat then mret tt
  else forEach (seedOne now) passagesToAdd.

Definition adminMobile : Text := text "8055926965".

Definition addAdmin : M unit :=
  ok ← hasPermission caller admin;
  trap_if (negb ok) "Unauthorized: Only admins can add other admins";;
  s ← getState;
  if containsKey (mobileToUser s) adminMobile then mret tt
  else
    let adminProfile :=
      {| UserProfile.name := text "admin";
         UserProfile.mobile := adminMobile;
         UserProfile.passwordHash := hashPassword (text "admin123");
         UserProfile.sessionId := [] |} in
    modify (set_userProfiles <[caller := adminProfile]>);;
    modify (set_mobileToUser <[adminMobile := caller]>);;
    assignRole caller caller admin.

End PassageMethods.

(** ** Messages and reachable states *)

(** The update methods of the actor. Queries ([getCallerUserProfile],
    [getUserProfile], [getPassages], [getTestResults]) change nothing and
    are not listed. *)
Inductive Call :=
  | CallSaveCallerUserProfile (profile : UserProfile.t)
  | CallRegisterUser (name mobile password : Text)
  | CallLogin (mobile password : Text)
  | CallCheckSessionValid (mobile sessionId : Text)
  | CallLogout (mobile : Text)
  | CallAddPassage (title content : Text) (timeMinutes : N)
  | CallUpdatePassage (id title content : Text) (timeMinutes : N)
  | CallDeletePassage (id : Text)
  | CallSubmitTestResult (userName userMobile passageTitle : Text)
                         (wpm accuracy mistakes : N)
  | CallSeedData
  | CallAddAdmin
  | CallAssignRole (target : Principal) (role : UserRole).

(** A message: who sends it, the clock reading of its execution, the
    method. *)
Record Message := mkMessage {
  msg_caller : Principal;
  msg_now : Z;
  msg_call : Call;
}.

(** Modelled from the spec: the methods of the mixin MixinAuthorization
    (not among the sources) only touch the role assignments. Their gating
    is not modelled: [CallAssignRole] may write any assignment, which
    covers every behaviour the mixin can have. *)
Definition exec (msg : Message) (s : State) : State :=
  let caller := msg_caller msg in
  let now := msg_now msg in
  match msg_call msg with
  | CallSaveCallerUserProfile p => run (saveCallerUserProfile caller p) s
  | CallRegisterUser n m pw => run (registerUser caller n m pw) s
  | CallLogin m pw => run (login now m pw) s
  | CallCheckSessionValid m sid => run (checkSessionValid m sid) s
  | CallLogout m => run (logout caller m) s
  | CallAddPassage t c tm => run (addPassage caller now t c tm) s
  | CallUpdatePassage i t c tm => run (updatePassage caller i t c tm) s
  | CallDeletePassage i => run (deletePassage caller i) s
  | CallSubmitTestResult un um pt w a mi =>
      run (submitTestResult caller now un um pt w a mi) s
  | CallSeedData => run (seedData caller now) s
  | CallAddAdmin => run (addAdmin caller) s
  | CallAssignRole target role => run (assignRole caller target role) s
  end.

(** State after a sequence of messages, executed one after the other. *)
Definition execs (msgs : list Message) (s : State) : State :=
  foldl (fun st msg => exec msg st) s msgs.

Inductive reachable : State -> Prop :=
  | reachable_initial : reachable initial
  | reachable_exec s msg : reachable s -> reachable (exec msg s).

(** Every account of the index has a profile. *)
Definition indexed_have_profile (s : State) : Prop :=
  forall m p, mobileToUser s !! m = Some p -> is_Some (userProfiles s !! p).

(** ** Notions used by the statements *)

(** The stored session token of the account of a mobile number. *)
Definition storedSession (s : State) (m : Text) : option Text :=
  p ← mobileToUser s !! m;
  profile ← userProfiles s !! p;
  Some (UserProfile.sessionId profile).

(** The session field of the profile of an identity. *)
Definition sessionOf (s : State) (p : Principal) : option Text :=
  UserProfile.sessionId <$> userProfiles s !! p.

(** The messages that can write the non-empty token [T] into the session
    field of [p]: a login, through any mobile indexed to [p], that mints
    [T], and [saveCallerUserProfile] sent by [p] with [T] in the profile. *)
Definition stores_session (p : Principal) (T : Text) (s : State)
    (msg : Message) : Prop :=
  match msg_call msg with
  | CallLogin m _ =>
      mobileToUser s !! m = Some p /\
      exists profile,
        userProfiles s !! p = Some profile /\
        hashPassword (UserProfile.mobile profile ++ Int_toText (msg_now msg)) = T
  | CallSaveCallerUserProfile profile =>
      msg_caller msg = p /\ UserProfile.sessionId profile = T
  | _ => False
  end.

(** No message of the sequence, run from [s], is one of those. *)
Fixpoint never_stores (p : Principal) (T : Text) (s : State)
    (msgs : list Message) : Prop :=
  match msgs with
  | [] => True
  | msg :: rest => ~ stores_session p T s msg /\ never_stores p T (exec msg s) rest
  end.

(** What a message can do to the two account maps: nothing, store one
    profile, or store one profile together with a fresh index entry for
    its owner. *)
Inductive AccountEffect (s s' : State) : Prop :=
  | effect_none :
      userProfiles s' = userProfiles s ->
      mobileToUser s' = mobileToUser s ->
      AccountEffect s s'
  | effect_profile p profile :
      userProfiles s' = <[p := profile]> (userProfiles s) ->
      mobileToUser s' = mobileToUser s ->
      AccountEffect s s'
  | effect_account p profile m :
      mobileToUser s !! m = None ->
      userProfiles s' = <[p := profile]> (userProfiles s) ->
      mobileToUser s' = <[m := p]> (mobileToUser s) ->
      AccountEffect s s'.

(** The passage that [seedData] builds from one tuple, and its insertion. *)
Definition seedPassage (now : Z) (entry : Text * Text * N) : Passage.t :=
  {| Passage.id := hashPassword (entry.1.1 ++ Int_toText now);
     Passage.title := entry.1.1;
     Passage.content := entry.1.2;
     Passage.timeMinutes := entry.2 |}.

Definition seedInsert (now : Z) (ps : gmap (list N) Passage.t)
    (entry : Text * Text * N) : gmap (list N) Passage.t :=
  <[Passage.id (seedPassage now entry) := seedPassage now entry]> ps.

(** Not greater under [Text.compare]. *)
Definition Text_le (a b : Text) : Prop := Text_compare a b <> Gt.

(** Ascending by id, under [Passage.compare]. *)
Definition Passage_le (p q : Passage.t) : Prop :=
  Passage.compare p q <> Gt.

(** Ascending by timestamp, under [TestResult.compareByTime]. *)
Definition TestResult_le (r1 r2 : TestResult.t) : Prop :=
  TestResult.compareByTime r1 r2 <> Gt.

(** The code points that [Int.toText] produces: the minus sign and the
    digits. *)
Definition numeric (c : Char) : Prop := 45 <= c <= 57.

(** ** Concrete states used as examples *)

Definition alice : Principal := "alice".
Definition bob : Principal := "bob".
Definition root : Principal := "root".
Definition mobileA : Text := text "9990001111".
Definition mobileB : Text := text "9990002222".
Definition pw1 : Text := text "pw1".

(** Alice has registered and nothing else has happened. *)
Definition s_registered : State :=
  run (registerUser alice (text "Alice") mobileA pw1) initial.

(** Alice logs in at clock reading 5, and then again at 5 or at 6. *)
Definition token5 : Text := hashPassword (mobileA ++ Int_toText 5).
Definition s_login_5 : State := run (login 5 mobileA pw1) s_registered.
Definition s_login_5_5 : State := run (login 5 mobileA pw1) s_login_5.
Definition s_login_5_6 : State := run (login 6 mobileA pw1) s_login_5.

(** After the login at 6 Alice saves a profile that carries the token of
    the login at 5. *)
Definition profile_with_token5 : UserProfile.t :=
  UserProfile.mk (text "Alice") mobileA (hashPassword pw1) token5.
Definition s_saved : State :=
  run (saveCallerUserProfile alice profile_with_token5) s_login_5_6.

(** A state whose only content is an administrator. *)
Definition s_admin : State :=
  set_accessControlState (fun _ => {[root := admin]}) initial.

(** A state with an administrator and one stored passage. *)
Definition s_one_passage : State :=
  run (addPassage root 17 (text "Title") (text "Body") 3) s_admin.

(** A state with an administrator and the three seeded passages. *)
Definition s_seeded : State := run (seedData root 17) s_admin.

(** A state in which Alice has the [user] role and nothing is stored. *)
Definition s_user : State :=
  set_accessControlState (fun _ => {[alice := user]}) initial.

(** Two submissions of Alice at the same clock reading. *)
Definition result_first : TestResult.t :=
  TestResult.mk (hashPassword (mobileA ++ Int_toText 5))
                (text "Alice") mobileA (text "P1") 40 90 3 5.
Definition result_second : TestResult.t :=
  TestResult.mk (hashPassword (mobileA ++ Int_toText 5))
                (text "Alice") mobileA (text "P2") 55 95 1 5.
Definition s_submit_1 : State :=
  run (submitTestResult alice 5 (text "Alice") mobileA (text "P1") 40 90 3) s_user.
Definition s_submit_2 : State :=
  run (submitTestResult alice 5 (text "Alice") mobileA (text "P2") 55 95 1) s_submit_1.

(** ** Further notions *)

(** Every passage is stored under its own id. *)
Definition passages_keyed (s : State) : Prop :=
  forall k p, passages s !! k = Some p -> Passage.id p = k.

(** Every result is stored under its own id, which is the one derived
    from its mobile and its timestamp. *)
Definition results_keyed (s : State) : Prop :=
  forall k r, testResults s !! k = Some r ->
    TestResult.id r = k /\
    k = hashPassword (TestResult.userMobile r ++ Int_toText (TestResult.timestamp r)).

(** The methods that write the passage store. *)
Definition writes_passages (c : Call) : Prop :=
  match c with
  | CallAddPassage _ _ _ | CallUpdatePassage _ _ _ _
  | CallDeletePassage _ | CallSeedData => True
  | _ => False
  end.

(** What a message can do to the passage store. *)
Inductive PassageEffect (s s' : State) : Prop :=
  | passages_same :
      passages s' = passages s -> PassageEffect s s'
  | passages_added p :
      passages s' = <[Passage.id p := p]> (passages s) -> PassageEffect s s'
  | passages_updated id existing title content tm :
      passages s !! id = Some existing ->
      passages s' = <[id := Passage.mk (Passage.id existing) title content tm]>
                      (passages s) ->
      PassageEffect s s'
  | passages_deleted id :
      passages s' = delete id (passages s) -> PassageEffect s s'
  | passages_seeded now :
      passages s' = foldl (seedInsert now) (passages s) passagesToAdd ->
      PassageEffect s s'.

(** ** The frontend callers of the actor (src/frontend)

    A JavaScript string is the list of its UTF-16 code units; the literals
    of the code are ASCII, and such a string is handed to the actor as the
    text with the same code points. The connected actor is given by the
    state in which its method runs; [None] is the missing actor. *)

Module Frontend.

(** [SessionData] of context/AuthContext.tsx. *)
Record SessionData := mkSession {
  name : list N;
  mobile : list N;
  sessionId : list N;
}.

(** [const isAdmin = session?.mobile === "8055926965"] of [AuthProvider]. *)
Definition isAdmin (session : option SessionData) : bool :=
  match session with
  | Some d => bool_decide (mobile d = text "8055926965")
  | None => false
  end.

Inductive Screen := AuthScreen | AdminPanel | ExamInterface.

(** [AppRouter] of App.tsx. *)
Definition AppRouter (session : option SessionData) : Screen :=
  match session with
  | None => AuthScreen
  | Some _ => if isAdmin session then AdminPanel else ExamInterface
  end.

(** [handleLogin]: the session after the handler has run. A trapped call
    rejects and is caught; the session is then left as it was. *)
Definition handleLogin (actor : option State) (now : Z)
    (loginMobile loginPassword : list N) (session : option SessionData)
    : option SessionData :=
  match actor with
  | None => session
  | Some s =>
      match login now loginMobile loginPassword s with
      | Ok r _ => Some {| name := login_name r; mobile := login_mobile r;
                          sessionId := login_sessionId r |}
      | Trap _ => session
      end
  end.

(** The [queryFn] of [useCheckSession]; [None] is a rejected call. *)
Definition checkSessionQuery (actor : option State) (mobile sessionId : list N)
    : option bool :=
  match actor with
  | None => Some false
  | Some s =>
      if bool_decide (mobile = []) || bool_decide (sessionId = []) then Some false
      else match checkSessionValid mobile sessionId s with
           | Ok b _ => Some b
           | Trap _ => None
           end
  end.

(** The class [\s] of a regular expression, which is also what [trim]
    strips: white space and line terminators. *)
Definition isWhiteSpace (c : N) : bool :=
  bool_decide (c ∈ [9; 10; 11; 12; 13; 32; 160; 5760; 8232; 8233; 8239; 8287;
                    12288; 65279])
  || ((8192 <=? c) && (c <=? 8202)).

Fixpoint dropWhiteSpace (s : list N) : list N :=
  match s with
  | c :: s' => if isWhiteSpace c then dropWhiteSpace s' else s
  | [] => []
  end.

(** [s.trim ()] *)
Definition trim (s : list N) : list N :=
  reverse (dropWhiteSpace (reverse (dropWhiteSpace s))).

(** [s.split (/\s+/)]: [cur] is the piece being read, in reverse;
    [skipping] holds inside a run of white space. *)
Fixpoint split_aux (cur : list N) (skipping : bool) (s : list N) : list (list N) :=
  match s with
  | [] => [reverse cur]
  | c :: s' =>
      if isWhiteSpace c then
        if skipping then split_aux cur true s'
        else reverse cur :: split_aux [] true s'
      else split_aux (c :: cur) false s'
  end.

Definition split (s : list N) : list (list N) := split_aux [] false s.

(** [passage.content.trim ().split (/\s+/)] *)
Definition passageWordsOf (content : list N) : list (list N) :=
  split (trim content).

(** [text.trim () ? text.trim ().split (/\s+/) : []] *)
Definition typedWordsOf (text : list N) : list (list N) :=
  match trim text with
  | [] => []
  | _ :: _ => split (trim text)
  end.

(** The loop of [doSubmit] that counts the mistakes: [typedWords[i] !==
    passageWords[i]] for every index of [typedWords]; an index past the end
    of [passageWords] reads [undefined]. *)
Definition countMistakes (typedWords passageWords : list (list N)) : nat :=
  foldl (fun mistakes i =>
           if bool_decide (typedWords !! i = passageWords !! i)
           then mistakes else S mistakes)
        0%nat (seq 0 (length typedWords)).

(** The [mistakes] that [doSubmit] submits for a typed text. *)
Definition mistakesOf (text content : list N) : nat :=
  countMistakes (typedWordsOf text) (passageWordsOf content).

Record WordResult := mkWordResult {
  word : list N;
  correct : bool;
  typed : list N;
}.

(** The [map] of [analyzeWords]. *)
Definition analyzeList (passageWords typedWords : list (list N)) : list WordResult :=
  imap (fun i word =>
          {| word := word;
             typed := default [] (typedWords !! i);
             correct := bool_decide (typedWords !! i = Some word) |})
       passageWords.

(** [analyzeWords (passage, typedText)], on the content of the passage. *)
Definition analyzeWords (content typedText : list N) : list WordResult :=
  analyzeList (passageWordsOf content) (typedWordsOf typedText).

End Frontend.

(** A word as [split] should produce it: not empty, no white space. *)
Definition clean_word (w : list N) : Prop :=
  w <> [] /\ Forall (fun c => Frontend.isWhiteSpace c = false) w.

(** The methods of main.mo that do not ask for a capability of the
    caller. *)
Definition open_method (c : Call) : Prop :=
  match c with
  | CallRegisterUser _ _ _ | CallLogin _ _ | CallCheckSessionValid _ _
  | CallLogout _ => True
  | _ => False
  end.

(** Every profile carries a mobile that the index maps to its owner. *)
Definition owner_indexed (s : State) : Prop :=
  forall p profile,
    userProfiles s !! p = Some profile ->
    mobileToUser s !! UserProfile.mobile profile = Some p.

(** No two identities hold profiles with the same mobile. *)
Definition profile_mobiles_unique (s : State) : Prop :=
  forall p1 p2 profile1 profile2,
    userProfiles s !! p1 = Some profile1 ->
    userProfiles s !! p2 = Some profile2 ->
    UserProfile.mobile profile1 = UserProfile.mobile profile2 ->
    p1 = p2.

Definition saves_profile (c : Call) : Prop :=
  match c with
  | CallSaveCallerUserProfile _ => True
  | _ => False
  end.

(** The role assignment of the authorization mixin, which is not a method
    of main.mo. *)
Definition mixin_method (c : Call) : Prop :=
  match c with
  | CallAssignRole _ _ => True
  | _ => False
  end.

(** * Properties *)

(** ** Unfolding a method *)

Ltac munfold :=
  cbv beta iota delta [mbind mret M_bind M_ret getState modify trap_if trap
    hasPermission isAdmin assignRole].

Lemma containsKey_true `{Countable K} {V} (m : gmap K V) k :
  containsKey m k = true <-> is_Some (m !! k).
Proof. unfold containsKey. apply bool_decide_eq_true. Qed.

Lemma containsKey_false `{Countable K} {V} (m : gmap K V) k :
  containsKey m k = false <-> m !! k = None.
Proof.
  unfold containsKey. rewrite bool_decide_eq_false.
  rewrite eq_None_not_Some. reflexivity.
Qed.

Lemma containsKey_Some `{Countable K} {V} (m : gmap K V) k v :
  m !! k = Some v -> containsKey m k = true.
Proof. intros E. apply containsKey_true. eauto. Qed.

Lemma Text_eqb_true a b : Text_eqb a b = true <-> a = b.
Proof. unfold Text_eqb. apply bool_decide_eq_true. Qed.

Lemma Text_eqb_false a b : Text_eqb a b = false <-> a <> b.
Proof. unfold Text_eqb. apply bool_decide_eq_false. Qed.

(** ** Equations of the account methods *)

Lemma registerUser_taken caller s n m pw :
  is_Some (mobileToUser s !! m) ->
  registerUser caller n m pw s = Trap "Mobile number already registered".
Proof.
  intros E. apply containsKey_true in E.
  unfold registerUser. munfold. rewrite E. reflexivity.
Qed.

Lemma registerUser_fresh caller s n m pw :
  mobileToUser s !! m = None ->
  registerUser caller n m pw s =
    Ok (text "OK")
       {| userProfiles :=
            <[caller := UserProfile.mk n m (hashPassword pw) []]> (userProfiles s);
          mobileToUser := <[m := caller]> (mobileToUser s);
          passages := passages s;
          testResults := testResults s;
          accessControlState := <[caller := user]> (accessControlState s) |}.
Proof.
  intros E. apply containsKey_false in E.
  unfold registerUser. munfold. rewrite E. reflexivity.
Qed.

Lemma login_unknown now s m pw :
  mobileToUser s !! m = None ->
  login now m pw s = Trap "User does not exist".
Proof. intros E. unfold login. munfold. rewrite E. reflexivity. Qed.

Lemma login_bad_password now s m pw p profile :
  mobileToUser s !! m = Some p ->
  userProfiles s !! p = Some profile ->
  UserProfile.passwordHash profile <> hashPassword pw ->
  login now m pw s = Trap "Invalid password".
Proof.
  intros E1 E2 E3. apply Text_eqb_false in E3.
  unfold login. munfold. rewrite E1, E2, E3. reflexivity.
Qed.

Lemma login_ok now s m pw p profile :
  mobileToUser s !! m = Some p ->
  userProfiles s !! p = Some profile ->
  UserProfile.passwordHash profile = hashPassword pw ->
  let sid := hashPassword (UserProfile.mobile profile ++ Int_toText now) in
  login now m pw s =
    Ok (mkLoginOk (UserProfile.name profile) (UserProfile.mobile profile) sid)
       (set_userProfiles <[p := UserProfile.with_sessionId profile sid]> s).
Proof.
  intros E1 E2 E3. apply Text_eqb_true in E3.
  unfold login. munfold. rewrite E1, E2, E3. reflexivity.
Qed.

Lemma checkSessionValid_eq m sid s :
  checkSessionValid m sid s =
    Ok (match mobileToUser s !! m with
        | None => false
        | Some p =>
            match userProfiles s !! p with
            | None => false
            | Some profile => Text_eqb (UserProfile.sessionId profile) sid
            end
        end) s.
Proof.
  unfold checkSessionValid. munfold.
  destruct (mobileToUser s !! m) as [p|]; [|reflexivity].
  destruct (userProfiles s !! p); reflexivity.
Qed.

Lemma checkSessionValid_stored m sid s :
  checkSessionValid m sid s = Ok (bool_decide (storedSession s m = Some sid)) s.
Proof.
  rewrite checkSessionValid_eq. f_equal. unfold storedSession.
  destruct (mobileToUser s !! m) as [p|]; simpl; [|reflexivity].
  destruct (userProfiles s !! p) as [profile|]; simpl; [|reflexivity].
  unfold Text_eqb. apply bool_decide_ext. split; congruence.
Qed.

(** ** Equations of the passage and result methods *)

Lemma forEach_seedOne now l s :
  forEach (seedOne now) l s =
    Ok tt (set_passages (fun ps => foldl (seedInsert now) ps l) s).
Proof.
  revert s. induction l as [|[[t c] tm] l IH]; intros s.
  - destruct s; reflexivity.
  - cbn [forEach]. munfold. cbn [seedOne]. munfold.
    rewrite IH. destruct s; reflexivity.
Qed.

Lemma seedData_unauthorized caller now s :
  AccessControl.hasPermission (accessControlState s) caller admin = false ->
  seedData caller now s = Trap "Unauthorized: Only admins can seed data".
Proof. intros E. unfold seedData. munfold. rewrite E. reflexivity. Qed.

Lemma seedData_nonempty caller now s :
  AccessControl.hasPermission (accessControlState s) caller admin = true ->
  size (passages s) <> 0%nat ->
  seedData caller now s = Ok tt s.
Proof.
  intros E Hs. unfold seedData. munfold. rewrite E. cbn [negb].
  destruct (Nat.ltb_spec 0 (size (passages s))) as [_|Hle]; [reflexivity|].
  exfalso. apply Hs. apply Nat.le_0_r, Hle.
Qed.

Lemma seedData_empty caller now s :
  AccessControl.hasPermission (accessControlState s) caller admin = true ->
  size (passages s) = 0%nat ->
  seedData caller now s =
    Ok tt (set_passages (fun ps => foldl (seedInsert now) ps passagesToAdd) s).
Proof.
  intros E Hs. unfold seedData. munfold. rewrite E. cbn [negb].
  rewrite Hs. cbn [Nat.ltb Nat.leb]. apply forEach_seedOne.
Qed.

Ltac acc_simpl :=
  cbn [userProfiles mobileToUser passages testResults accessControlState
       set_userProfiles set_mobileToUser set_passages set_testResults
       set_accessControlState] in *.

Ltac run_cases :=
  unfold run; munfold;
  repeat match goal with
    | |- context [match ?x with _ => _ end] =>
        lazymatch x with
        | context [match _ with _ => _ end] => fail
        | _ => destruct x eqn:?
        end
    end;
  cbn [negb andb orb] in *.

Lemma exec_AccountEffect msg s : AccountEffect s (exec msg s).
Proof.
  destruct msg as [caller now call]. unfold exec. cbn [msg_caller msg_now msg_call].
  destruct call.
  - unfold saveCallerUserProfile. run_cases; try (apply effect_none; reflexivity).
    eapply effect_profile; acc_simpl; reflexivity.
  - destruct (mobileToUser s !! mobile) as [p|] eqn:E.
    + unfold run. rewrite registerUser_taken by eauto. apply effect_none; reflexivity.
    + unfold run. rewrite registerUser_fresh by assumption.
      eapply effect_account; acc_simpl; [exact E|reflexivity|reflexivity].
  - unfold login. run_cases; try (apply effect_none; reflexivity).
    eapply effect_profile; acc_simpl; reflexivity.
  - unfold run. rewrite checkSessionValid_eq. apply effect_none; reflexivity.
  - unfold logout. run_cases; try (apply effect_none; reflexivity).
    eapply effect_profile; acc_simpl; reflexivity.
  - unfold addPassage. run_cases; try (apply effect_none; reflexivity).
  - unfold updatePassage. run_cases; try (apply effect_none; reflexivity).
  - unfold deletePassage. run_cases; try (apply effect_none; reflexivity).
  - unfold submitTestResult. run_cases; try (apply effect_none; reflexivity).
  - unfold run.
    destruct (AccessControl.hasPermission (accessControlState s) caller admin) eqn:E.
    + destruct (decide (size (passages s) = 0%nat)) as [Hs|Hs].
      * rewrite seedData_empty by assumption. apply effect_none; reflexivity.
      * rewrite seedData_nonempty by assumption. apply effect_none; reflexivity.
    + rewrite seedData_unauthorized by assumption. apply effect_none; reflexivity.
  - unfold addAdmin. run_cases; try (apply effect_none; reflexivity).
    eapply effect_account; acc_simpl; [|reflexivity|reflexivity].
    apply containsKey_false. assumption.
  - unfold run. munfold. apply effect_none; reflexivity.
Qed.

(** ** Invariants of the account maps *)

Lemma exec_index_stable msg s m p :
  mobileToUser s !! m = Some p -> mobileToUser (exec msg s) !! m = Some p.
Proof.
  intros E. destruct (exec_AccountEffect msg s) as [_ Hi|? ? _ Hi|q ? m' Hm' _ Hi];
    rewrite Hi; try assumption.
  rewrite lookup_insert_ne; [assumption|]. congruence.
Qed.

Lemma execs_index_stable msgs s m p :
  mobileToUser s !! m = Some p -> mobileToUser (execs msgs s) !! m = Some p.
Proof.
  revert s. induction msgs as [|msg msgs IH]; intros s E; [exact E|].
  apply IH, exec_index_stable, E.
Qed.

Lemma exec_profile_kept msg s p :
  is_Some (userProfiles s !! p) -> is_Some (userProfiles (exec msg s) !! p).
Proof.
  intros E. destruct (exec_AccountEffect msg s) as [Hp _|q ? Hp _|q ? ? _ Hp _];
    rewrite Hp; try assumption;
    (destruct (decide (q = p)) as [->|Hne];
       [rewrite lookup_insert_eq; eauto|rewrite lookup_insert_ne; assumption]).
Qed.

Lemma exec_indexed_have_profile msg s :
  indexed_have_profile s -> indexed_have_profile (exec msg s).
Proof.
  intros Hs m p. pose proof (exec_profile_kept msg s) as Hkept.
  destruct (exec_AccountEffect msg s) as [Hp Hi|q ? Hp Hi|q ? m' _ Hp Hi].
  - rewrite Hi. intros E. apply Hkept, (Hs m p E).
  - rewrite Hi. intros E. apply Hkept, (Hs m p E).
  - rewrite Hi. destruct (decide (m' = m)) as [->|Hne].
    + rewrite lookup_insert_eq. intros [= <-]. rewrite Hp, lookup_insert_eq. eauto.
    + rewrite lookup_insert_ne by assumption. intros E. apply Hkept, (Hs m p E).
Qed.

Lemma reachable_indexed_have_profile s :
  reachable s -> indexed_have_profile s.
Proof.
  induction 1 as [|s msg _ IH].
  - intros m p. cbn [initial mobileToUser]. rewrite lookup_empty. discriminate.
  - apply exec_indexed_have_profile, IH.
Qed.

Lemma reachable_execs msgs s : reachable s -> reachable (execs msgs s).
Proof.
  revert s. induction msgs as [|msg msgs IH]; intros s Hs; [exact Hs|].
  apply IH. constructor. exact Hs.
Qed.

Lemma s_registered_reachable : reachable s_registered.
Proof.
  apply (reachable_exec initial
           (mkMessage alice 0 (CallRegisterUser (text "Alice") mobileA (text "pw1")))).
  constructor.
Qed.

(** ** Registration *)

Lemma owner_indexed_initial : owner_indexed initial.
Proof.
  intros p profile. cbn [initial userProfiles]. rewrite lookup_empty. discriminate.
Qed.

Lemma owner_indexed_account s s' q profile m :
  owner_indexed s ->
  mobileToUser s !! m = None ->
  UserProfile.mobile profile = m ->
  userProfiles s' = <[q := profile]> (userProfiles s) ->
  mobileToUser s' = <[m := q]> (mobileToUser s) ->
  owner_indexed s'.
Proof.
  intros Hs Hfresh Hm Hp Hi p pr. rewrite Hp, Hi.
  destruct (decide (q = p)) as [->|Hne].
  - rewrite lookup_insert_eq. intros [= <-]. rewrite Hm. apply lookup_insert_eq.
  - rewrite lookup_insert_ne by assumption. intros Hpr.
    pose proof (Hs p pr Hpr) as Hidx.
    rewrite lookup_insert_ne by congruence. exact Hidx.
Qed.

Lemma owner_indexed_session s s' q profile sid :
  owner_indexed s ->
  userProfiles s !! q = Some profile ->
  userProfiles s' = <[q := UserProfile.with_sessionId profile sid]> (userProfiles s) ->
  mobileToUser s' = mobileToUser s ->
  owner_indexed s'.
Proof.
  intros Hs Hq Hp Hi p pr. rewrite Hp, Hi.
  destruct (decide (q = p)) as [->|Hne].
  - rewrite lookup_insert_eq. intros [= <-]. exact (Hs p profile Hq).
  - rewrite lookup_insert_ne by assumption. apply Hs.
Qed.

Lemma exec_owner_indexed msg s :
  ~ saves_profile (msg_call msg) ->
  owner_indexed s -> owner_indexed (exec msg s).
Proof.
  destruct msg as [caller now call]. unfold exec. cbn [msg_caller msg_now msg_call].
  intros Hnosave Hs. destruct call.
  - exfalso. apply Hnosave. exact I.
  - destruct (mobileToUser s !! mobile) as [p|] eqn:E; unfold run.
    + rewrite registerUser_taken by eauto. exact Hs.
    + rewrite registerUser_fresh by assumption.
      eapply (owner_indexed_account s _ caller _ mobile Hs E);
        [|reflexivity|reflexivity]. reflexivity.
  - unfold login. run_cases; try exact Hs.
    eapply (owner_indexed_session s); [exact Hs|eassumption|reflexivity|reflexivity].
  - unfold run. rewrite checkSessionValid_eq. exact Hs.
  - unfold logout. run_cases; try exact Hs.
    eapply (owner_indexed_session s); [exact Hs|eassumption|reflexivity|reflexivity].
  - unfold addPassage. run_cases; exact Hs.
  - unfold updatePassage. run_cases; exact Hs.
  - unfold deletePassage. run_cases; exact Hs.
  - unfold submitTestResult. run_cases; exact Hs.
  - unfold run.
    destruct (AccessControl.hasPermission (accessControlState s) caller admin) eqn:E.
    + destruct (decide (size (passages s) = 0%nat)) as [Hz|Hz].
      * rewrite seedData_empty by assumption. exact Hs.
      * rewrite seedData_nonempty by assumption. exact Hs.
    + rewrite seedData_unauthorized by assumption. exact Hs.
  - unfold addAdmin. run_cases; try exact Hs.
    eapply (owner_indexed_account s _ caller _ adminMobile Hs);
      [apply containsKey_false; eassumption| |reflexivity|reflexivity].
    reflexivity.
  - unfold run. munfold. exact Hs.
Qed.

Lemma execs_owner_indexed msgs s :
  Forall (fun msg => ~ saves_profile (msg_call msg)) msgs ->
  owner_indexed s -> owner_indexed (execs msgs s).
Proof.
  intros Hmsgs. revert s. induction Hmsgs as [|msg msgs Hmsg _ IH]; intros s Hs.
  - exact Hs.
  - cbn [execs foldl]. apply IH, exec_owner_indexed; assumption.
Qed.

Lemma owner_indexed_unique s : owner_indexed s -> profile_mobiles_unique s.
Proof.
  intros Hs p1 p2 profile1 profile2 H1 H2 E.
  pose proof (Hs p1 profile1 H1) as I1. pose proof (Hs p2 profile2 H2) as I2.
  rewrite E in I1. congruence.
Qed.

(** C1, as stated, fails. Mobile uniqueness holds on the index but not on
    the profiles: in a reachable state a registered user has saved a
    profile that repeats the mobile of another account, so two identities
    hold that mobile. *)
Lemma saved_profile_may_repeat_mobile :
  let s := execs [mkMessage alice 1 (CallRegisterUser (text "Alice") mobileA pw1);
                  mkMessage bob 2 (CallRegisterUser (text "Bob") mobileB pw1);
                  mkMessage bob 3 (CallSaveCallerUserProfile
                                     (UserProfile.mk (text "Bob") mobileA
                                                     (hashPassword pw1) []))]
                 initial in
  reachable s /\
  (UserProfile.mobile <$> userProfiles s !! alice) = Some mobileA /\
  (UserProfile.mobile <$> userProfiles s !! bob) = Some mobileA /\
  alice <> bob /\
  ~ profile_mobiles_unique s /\
  mobileToUser s !! mobileA = Some alice /\
  mobileToUser s !! mobileB = Some bob.
Proof.
  split; [apply reachable_execs; constructor|].
  repeat split; try (vm_compute; reflexivity); try discriminate.
  intros Hu.
  assert (Habs : alice = bob); [|discriminate Habs].
  apply (Hu alice bob
           (UserProfile.mk (text "Alice") mobileA (hashPassword pw1) [])
           (UserProfile.mk (text "Bob") mobileA (hashPassword pw1) []));
    vm_compute; reflexivity.
Qed.

(** C1, amended. The mobile index never maps a mobile number to two
    identities: an entry, once written, keeps its identity through every
    later sequence of messages. As long as no [saveCallerUserProfile] runs,
    every profile's mobile is indexed to its owner, so no two identities
    hold profiles with the same mobile. [registerUser] with an indexed
    mobile traps with the duplicate-mobile message and the state stays as
    it was; with a mobile that is not indexed it returns ["OK"], stores the
    profile with an empty session, adds the index entry and leaves the
    caller with the [user] capability. *)
Theorem registerUser_mobile_unique (s : State) (caller : Principal)
    (name mobile password : Text) :
  (forall msgs m p1 p2,
      mobileToUser s !! m = Some p1 ->
      mobileToUser (execs msgs s) !! m = Some p2 -> p1 = p2) /\
  (forall msgs,
      Forall (fun msg => ~ saves_profile (msg_call msg)) msgs ->
      owner_indexed (execs msgs initial) /\
      profile_mobiles_unique (execs msgs initial)) /\
  (is_Some (mobileToUser s !! mobile) ->
     registerUser caller name mobile password s
       = Trap "Mobile number already registered" /\
     run (registerUser caller name mobile password) s = s) /\
  (mobileToUser s !! mobile = None ->
     exists s',
       registerUser caller name mobile password s = Ok (text "OK") s' /\
       userProfiles s' =
         <[caller := UserProfile.mk name mobile (hashPassword password) []]>
           (userProfiles s) /\
       mobileToUser s' = <[mobile := caller]> (mobileToUser s) /\
       passages s' = passages s /\
       testResults s' = testResults s /\
       AccessControl.hasPermission (accessControlState s') caller user = true).
Proof.
  split; [|split; [|split]].
  - intros msgs m p1 p2 E1 E2.
    rewrite (execs_index_stable msgs s m p1 E1) in E2. congruence.
  - intros msgs Hmsgs.
    assert (Ho : owner_indexed (execs msgs initial))
      by (apply execs_owner_indexed; [exact Hmsgs|apply owner_indexed_initial]).
    split; [exact Ho|apply owner_indexed_unique, Ho].
  - intros E. unfold run. rewrite registerUser_taken by assumption. auto.
  - intros E. eexists. split; [apply registerUser_fresh, E|].
    acc_simpl. repeat split.
    unfold AccessControl.hasPermission, AccessControl.getUserRole.
    rewrite lookup_insert_eq. reflexivity.
Qed.

Lemma registerUser_mobile_unique_witness :
  registerUser bob (text "Bob") mobileA (text "pw2") s_registered
    = Trap "Mobile number already registered" /\
  (exists s',
     registerUser bob (text "Bob") mobileB (text "pw2") s_registered
       = Ok (text "OK") s' /\
     mobileToUser s' !! mobileB = Some bob) /\
  mobileToUser
    (execs [mkMessage bob 7 (CallRegisterUser (text "Bob") mobileA (text "pw2"))]
           s_registered) !! mobileA = Some alice /\
  profile_mobiles_unique
    (execs [mkMessage alice 1 (CallRegisterUser (text "Alice") mobileA pw1);
            mkMessage bob 2 (CallRegisterUser (text "Bob") mobileB pw1);
            mkMessage alice 3 (CallLogin mobileA pw1)] initial).
Proof.
  split; [|split; [|split]].
  - apply (proj1 (proj2 (proj2 (registerUser_mobile_unique s_registered bob (text "Bob")
                                  mobileA (text "pw2"))))).
    vm_compute. eauto.
  - destruct (proj2 (proj2 (proj2 (registerUser_mobile_unique s_registered bob
                                     (text "Bob") mobileB (text "pw2")))))
      as (s' & E & _ & Hi & _); [vm_compute; reflexivity|].
    exists s'. split; [exact E|]. rewrite Hi. apply lookup_insert_eq.
  - vm_compute. reflexivity.
  - apply (proj1 (proj2 (registerUser_mobile_unique initial alice [] [] []))).
    repeat constructor; simpl; intros [].
Defined.

(** C10. A caller who already owns a profile and is indexed under [m1] can
    register again with an unindexed [m2]: the call succeeds, the caller's
    one profile is replaced by the new one (mobile [m2], empty session), the
    entry of [m1] stays, and both mobiles map to the caller. *)
Theorem registerUser_again (s : State) (caller : Principal)
    (old : UserProfile.t) (m1 name2 m2 password2 : Text) :
  userProfiles s !! caller = Some old ->
  UserProfile.mobile old = m1 ->
  mobileToUser s !! m1 = Some caller ->
  mobileToUser s !! m2 = None ->
  exists s',
    registerUser caller name2 m2 password2 s = Ok (text "OK") s' /\
    userProfiles s' !! caller
      = Some (UserProfile.mk name2 m2 (hashPassword password2) []) /\
    (forall q, q <> caller -> userProfiles s' !! q = userProfiles s !! q) /\
    mobileToUser s' !! m1 = Some caller /\
    mobileToUser s' !! m2 = Some caller /\
    m1 <> m2.
Proof.
  intros Hold Hm E1 E2.
  assert (Hne : m1 <> m2) by congruence.
  eexists. split; [apply registerUser_fresh, E2|]. acc_simpl.
  repeat split.
  - apply lookup_insert_eq.
  - intros q Hq. apply lookup_insert_ne. congruence.
  - rewrite lookup_insert_ne by congruence. exact E1.
  - apply lookup_insert_eq.
  - exact Hne.
Qed.

Lemma registerUser_again_witness :
  exists s',
    registerUser alice (text "Alice2") mobileB (text "pw9") s_registered
      = Ok (text "OK") s' /\
    mobileToUser s' !! mobileA = Some alice /\
    mobileToUser s' !! mobileB = Some alice /\
    (UserProfile.mobile <$> userProfiles s' !! alice) = Some mobileB.
Proof.
  destruct (registerUser_again s_registered alice
              (UserProfile.mk (text "Alice") mobileA (hashPassword (text "pw1")) [])
              mobileA (text "Alice2") mobileB (text "pw9"))
    as (s' & E & Hp & _ & H1 & H2 & _);
    [vm_compute; reflexivity | reflexivity | vm_compute; reflexivity
    | vm_compute; reflexivity |].
  exists s'. repeat split; try assumption. rewrite Hp. reflexivity.
Defined.

(** ** Session checks *)

(** C6. [checkSessionValid] answers [false] when the mobile is not indexed
    or the indexed identity has no profile, and otherwise compares the
    presented token with the stored session token; it always returns and
    never changes the state. *)
Theorem checkSessionValid_pure (s : State) (mobile token : Text) :
  exists b,
    checkSessionValid mobile token s = Ok b s /\
    run (checkSessionValid mobile token) s = s /\
    (mobileToUser s !! mobile = None -> b = false) /\
    (forall p, mobileToUser s !! mobile = Some p ->
               userProfiles s !! p = None -> b = false) /\
    (forall p profile,
        mobileToUser s !! mobile = Some p ->
        userProfiles s !! p = Some profile ->
        b = bool_decide (UserProfile.sessionId profile = token)).
Proof.
  eexists. split; [apply checkSessionValid_eq|].
  split; [unfold run; rewrite checkSessionValid_eq; reflexivity|].
  split; [|split].
  - intros ->. reflexivity.
  - intros p -> ->. reflexivity.
  - intros p profile -> ->. reflexivity.
Qed.

Lemma checkSessionValid_pure_witness :
  exists b,
    checkSessionValid mobileB (text "x") s_registered = Ok b s_registered /\
    b = false.
Proof.
  destruct (checkSessionValid_pure s_registered mobileB (text "x"))
    as (b & E & _ & Hnone & _).
  exists b. split; [exact E|]. apply Hnone. vm_compute. reflexivity.
Defined.

(** C4, as stated, fails: the account that Alice has just registered has
    the empty session token, and presenting the empty token is accepted. *)
Lemma empty_token_accepted :
  storedSession s_registered mobileA = Some [] /\
  checkSessionValid mobileA [] s_registered = Ok true s_registered.
Proof. split; vm_compute; reflexivity. Qed.

(** C4, amended. For an account whose stored session token is empty, no
    non-empty token is accepted; the empty token itself is accepted. *)
Theorem empty_session_rejects_nonempty (s : State) (mobile : Text) :
  storedSession s mobile = Some [] ->
  (forall token, token <> [] -> checkSessionValid mobile token s = Ok false s) /\
  checkSessionValid mobile [] s = Ok true s.
Proof.
  intros E. split.
  - intros token Hne. rewrite checkSessionValid_stored, E. f_equal.
    apply bool_decide_eq_false. congruence.
  - rewrite checkSessionValid_stored, E. reflexivity.
Qed.

Lemma empty_session_rejects_nonempty_witness :
  checkSessionValid mobileA (text "guess") s_registered = Ok false s_registered.
Proof.
  apply (empty_session_rejects_nonempty s_registered mobileA).
  - vm_compute. reflexivity.
  - discriminate.
Defined.

(** ** Login *)

(** C3, amended. In a reachable state [login] has exactly three outcomes:
    it traps with the no-such-user message when the mobile is not indexed;
    it traps with the invalid-password message when the hash of the
    password differs from the stored one; otherwise it returns the name and
    mobile of the stored profile with a new token, which is the hash of the
    profile's mobile followed by the decimal clock reading, and the
    profile's session field now holds that token (nothing else changes). *)
Theorem login_contract (s : State) (now : Z) (mobile password : Text) :
  reachable s ->
  match mobileToUser s !! mobile with
  | None => login now mobile password s = Trap "User does not exist"
  | Some p =>
      exists profile,
        userProfiles s !! p = Some profile /\
        if decide (UserProfile.passwordHash profile = hashPassword password)
        then
          let sid := hashPassword (UserProfile.mobile profile ++ Int_toText now) in
          exists s',
            login now mobile password s =
              Ok (mkLoginOk (UserProfile.name profile)
                            (UserProfile.mobile profile) sid) s' /\
            s' = set_userProfiles
                   <[p := UserProfile.with_sessionId profile sid]> s /\
            storedSession s' mobile = Some sid /\
            checkSessionValid mobile sid s' = Ok true s'
        else login now mobile password s = Trap "Invalid password"
  end.
Proof.
  intros Hs. destruct (mobileToUser s !! mobile) as [p|] eqn:Ei.
  - destruct (reachable_indexed_have_profile s Hs mobile p Ei) as [profile Ep].
    exists profile. split; [exact Ep|].
    destruct (decide _) as [Eh|Eh].
    + cbv zeta.
      set (sid := hashPassword (UserProfile.mobile profile ++ Int_toText now)).
      exists (set_userProfiles <[p := UserProfile.with_sessionId profile sid]> s).
      split; [apply (login_ok now s mobile password p profile); assumption|].
      split; [reflexivity|].
      assert (Est : storedSession
                      (set_userProfiles
                         <[p := UserProfile.with_sessionId profile sid]> s) mobile
                    = Some sid).
      { unfold storedSession. acc_simpl. rewrite Ei. cbn.
        rewrite lookup_insert_eq. reflexivity. }
      split; [exact Est|].
      rewrite checkSessionValid_stored, Est. f_equal.
      apply bool_decide_eq_true. reflexivity.
    + apply (login_bad_password now s mobile password p profile); assumption.
  - apply login_unknown, Ei.
Qed.

Lemma login_contract_witness :
  login 5 mobileB (text "pw1") s_registered = Trap "User does not exist" /\
  login 5 mobileA (text "wrong") s_registered = Trap "Invalid password" /\
  exists s',
    login 5 mobileA (text "pw1") s_registered =
      Ok (mkLoginOk (text "Alice") mobileA (hashPassword (mobileA ++ text "5"))) s'.
Proof.
  split; [|split].
  - exact (login_contract s_registered 5 mobileB (text "pw1") s_registered_reachable).
  - pose proof (login_contract s_registered 5 mobileA (text "wrong")
                  s_registered_reachable) as H.
    change (mobileToUser s_registered !! mobileA) with (Some alice) in H.
    destruct H as (profile & Ep & H).
    change (userProfiles s_registered !! alice)
      with (Some (UserProfile.mk (text "Alice") mobileA (hashPassword (text "pw1")) []))
      in Ep.
    injection Ep as <-.
    destruct (decide _) as [Eh|_]; [discriminate Eh|exact H].
  - pose proof (login_contract s_registered 5 mobileA (text "pw1")
                  s_registered_reachable) as H.
    change (mobileToUser s_registered !! mobileA) with (Some alice) in H.
    destruct H as (profile & Ep & H).
    change (userProfiles s_registered !! alice)
      with (Some (UserProfile.mk (text "Alice") mobileA (hashPassword (text "pw1")) []))
      in Ep.
    injection Ep as <-.
    destruct (decide _) as [_|Eh]; [|exfalso; apply Eh; reflexivity].
    destruct H as (s' & E & _). exists s'. exact E.
Defined.

(** C3, as stated, fails. The name and mobile that [login] returns, and
    the mobile the token is derived from, are read from the stored profile,
    not from the argument: in the reachable state in which Alice has
    registered a second time, a login through her first mobile returns the
    second one and a token derived from the second one. *)
Lemma login_returns_profile_mobile :
  let s := execs [mkMessage alice 1 (CallRegisterUser (text "Alice") mobileA pw1);
                  mkMessage alice 2 (CallRegisterUser (text "Alice") mobileB pw1)]
                 initial in
  reachable s /\
  (exists s',
     login 5 mobileA pw1 s =
       Ok (mkLoginOk (text "Alice") mobileB (hashPassword (mobileB ++ Int_toText 5))) s') /\
  mobileB <> mobileA /\
  hashPassword (mobileB ++ Int_toText 5) <> hashPassword (mobileA ++ Int_toText 5).
Proof.
  split; [apply reachable_execs; constructor|].
  split; [eexists; vm_compute; reflexivity|].
  split; vm_compute; discriminate.
Qed.

(** ** Passage mutations *)

Lemma updatePassage_eq caller id title content tm s :
  AccessControl.hasPermission (accessControlState s) caller admin = true ->
  updatePassage caller id title content tm s =
    match passages s !! id with
    | None => Trap "Passage does not exist"
    | Some existing =>
        Ok ok_ (set_passages
                  <[id := Passage.mk (Passage.id existing) title content tm]> s)
    end.
Proof.
  intros E. unfold updatePassage. munfold. rewrite E. cbn [negb].
  destruct (passages s !! id); reflexivity.
Qed.

Lemma deletePassage_eq caller id s :
  AccessControl.hasPermission (accessControlState s) caller admin = true ->
  deletePassage caller id s =
    match passages s !! id with
    | None => Trap "Passage does not exist"
    | Some _ => Ok ok_ (set_passages (delete id) s)
    end.
Proof.
  intros E. unfold deletePassage. munfold. rewrite E. cbn [negb].
  destruct (passages s !! id) eqn:Ep.
  - rewrite (containsKey_Some _ _ _ Ep). reflexivity.
  - apply containsKey_false in Ep. rewrite Ep. reflexivity.
Qed.

Lemma updatePassage_never_err caller id title content tm s msg s' :
  updatePassage caller id title content tm s <> Ok (err_ msg) s'.
Proof. unfold updatePassage. run_cases; discriminate. Qed.

Lemma deletePassage_never_err caller id s msg s' :
  deletePassage caller id s <> Ok (err_ msg) s'.
Proof. unfold deletePassage. run_cases; discriminate. Qed.

(** C5, as stated, fails: for an administrator and a passage id that is not
    stored, both mutations trap; no [#err] value is returned. *)
Lemma passage_mutations_trap :
  AccessControl.hasPermission (accessControlState s_admin) root admin = true /\
  passages s_admin !! text "nope" = None /\
  updatePassage root (text "nope") (text "t") (text "c") 5 s_admin
    = Trap "Passage does not exist" /\
  deletePassage root (text "nope") s_admin = Trap "Passage does not exist".
Proof. repeat split; vm_compute; reflexivity. Qed.

(** C5, amended. Called by an administrator, [updatePassage] and
    [deletePassage] trap with the passage-does-not-exist message when the id
    is not stored, as the other methods do on their errors, and the state
    stays as it was; when the id is stored they return [#ok], the first
    after replacing title, content and minutes under the same id, the second
    after removing the entry. Neither ever returns an [#err] value. *)
Theorem passage_mutations_results (s : State) (caller : Principal)
    (id title content : Text) (tm : N) :
  AccessControl.hasPermission (accessControlState s) caller admin = true ->
  (passages s !! id = None ->
     updatePassage caller id title content tm s = Trap "Passage does not exist" /\
     deletePassage caller id s = Trap "Passage does not exist" /\
     run (updatePassage caller id title content tm) s = s /\
     run (deletePassage caller id) s = s) /\
  (forall existing, passages s !! id = Some existing ->
     updatePassage caller id title content tm s =
       Ok ok_ (set_passages
                 <[id := Passage.mk (Passage.id existing) title content tm]> s) /\
     deletePassage caller id s = Ok ok_ (set_passages (delete id) s)) /\
  (forall msg s',
     updatePassage caller id title content tm s <> Ok (err_ msg) s' /\
     deletePassage caller id s <> Ok (err_ msg) s').
Proof.
  intros Hadm. split; [|split].
  - intros E. unfold run.
    rewrite updatePassage_eq, deletePassage_eq, E by assumption. auto.
  - intros existing E.
    rewrite updatePassage_eq, deletePassage_eq, E by assumption. auto.
  - intros msg s'. split.
    + apply updatePassage_never_err.
    + apply deletePassage_never_err.
Qed.

Lemma passage_mutations_results_witness :
  updatePassage root (text "nope") (text "t") (text "c") 5 s_one_passage
    = Trap "Passage does not exist" /\
  exists s',
    deletePassage root (hashPassword (text "Title17")) s_one_passage = Ok ok_ s' /\
    passages s' !! hashPassword (text "Title17") = None.
Proof.
  pose proof (passage_mutations_results s_one_passage root (text "nope")
                (text "t") (text "c") 5) as (Habsent & _ & _);
    [vm_compute; reflexivity|].
  split; [apply Habsent; vm_compute; reflexivity|].
  pose proof (passage_mutations_results s_one_passage root
                (hashPassword (text "Title17")) (text "t") (text "c") 5)
    as (_ & Hpresent & _); [vm_compute; reflexivity|].
  destruct (Hpresent (Passage.mk (hashPassword (text "Title17")) (text "Title")
                        (text "Body") 3)) as [_ Hdel];
    [vm_compute; reflexivity|].
  eexists. split; [exact Hdel|]. acc_simpl. apply lookup_delete_eq.
Defined.

(** ** Orders used by the listings *)

Lemma Text_compare_antisym a b :
  Text_compare b a = CompOpp (Text_compare a b).
Proof.
  revert b. induction a as [|x a IH]; intros [|y b]; try reflexivity.
  cbn [Text_compare]. rewrite (N.compare_antisym x y).
  destruct (N.compare x y); cbn [CompOpp]; auto.
Qed.

Lemma Text_compare_Eq a b : Text_compare a b = Eq -> a = b.
Proof.
  revert b. induction a as [|x a IH]; intros [|y b]; try discriminate; auto.
  cbn [Text_compare]. destruct (N.compare_spec x y); try discriminate.
  intros E. subst. f_equal. auto.
Qed.

Lemma Text_le_total a b : Text_le a b \/ Text_le b a.
Proof.
  unfold Text_le. rewrite (Text_compare_antisym a b).
  destruct (Text_compare a b); cbn [CompOpp]; auto.
Qed.

Lemma Text_le_trans a b c : Text_le a b -> Text_le b c -> Text_le a c.
Proof.
  unfold Text_le. revert b c.
  induction a as [|x a IH]; intros [|y b] [|z c]; cbn [Text_compare]; try congruence.
  destruct (N.compare_spec x y) as [->|Hxy|Hxy]; try congruence.
  - destruct (N.compare_spec y z); try congruence. apply IH.
  - intros _. destruct (N.compare_spec y z) as [->|Hyz|Hyz]; try congruence.
    + intros _. apply N.compare_lt_iff in Hxy. rewrite Hxy. discriminate.
    + intros _. assert (Hxz : x < z) by (etransitivity; eassumption).
      apply N.compare_lt_iff in Hxz. rewrite Hxz. discriminate.
Qed.

#[local] Instance Passage_le_total : Total Passage_le.
Proof. intros p q. apply Text_le_total. Qed.

#[local] Instance Passage_le_trans : Transitive Passage_le.
Proof. intros p q r. apply Text_le_trans. Qed.

Lemma TestResult_le_iff r1 r2 :
  TestResult_le r1 r2 <-> (TestResult.timestamp r1 <= TestResult.timestamp r2)%Z.
Proof. reflexivity. Qed.

#[local] Instance TestResult_le_total : Total TestResult_le.
Proof. intros r1 r2. rewrite !TestResult_le_iff. lia. Qed.

#[local] Instance TestResult_le_trans : Transitive TestResult_le.
Proof. intros r1 r2 r3. rewrite !TestResult_le_iff. lia. Qed.

Lemma Map_values_Permutation {V} (m : gmap (list N) V) :
  Map_values m ≡ₚ (map_to_list m).*2.
Proof. unfold Map_values. apply fmap_Permutation, merge_sort_Permutation. Qed.

Lemma sortInsert_Permutation {A} (cmp : A -> A -> comparison) (x : A) (l : list A) :
  sortInsert cmp x l ≡ₚ x :: l.
Proof.
  induction l as [|y l IH]; [reflexivity|]. cbn [sortInsert].
  destruct (cmp x y); try reflexivity.
  rewrite IH. apply Permutation_swap.
Qed.

Lemma Array_sort_Permutation {A} (cmp : A -> A -> comparison) (a : list A) :
  Array_sort cmp a ≡ₚ a.
Proof.
  unfold Array_sort. induction a as [|x a IH]; [reflexivity|].
  cbn [foldr]. rewrite sortInsert_Permutation, IH. reflexivity.
Qed.

Lemma sortInsert_sorted {A} (cmp : A -> A -> comparison)
    `{!Total (fun x y => cmp x y <> Gt), !Transitive (fun x y => cmp x y <> Gt)}
    (x : A) (l : list A) :
  StronglySorted (fun x y => cmp x y <> Gt) l ->
  StronglySorted (fun x y => cmp x y <> Gt) (sortInsert cmp x l).
Proof.
  induction 1 as [|y l Hl IH Hy]; [repeat constructor|].
  cbn [sortInsert]. destruct (cmp x y) eqn:Exy.
  - constructor; [constructor; assumption|].
    constructor; [congruence|].
    eapply Forall_impl; [exact Hy|]. intros z Hz.
    refine (@transitivity A (fun a b => cmp a b <> Gt) _ x y z _ Hz). congruence.
  - constructor; [constructor; assumption|].
    constructor; [congruence|].
    eapply Forall_impl; [exact Hy|]. intros z Hz.
    refine (@transitivity A (fun a b => cmp a b <> Gt) _ x y z _ Hz). congruence.
  - constructor; [exact IH|].
    rewrite sortInsert_Permutation. constructor; [|exact Hy].
    destruct (total (fun x y => cmp x y <> Gt) x y) as [H|H]; [congruence|exact H].
Qed.

Lemma Array_sort_sorted {A} (cmp : A -> A -> comparison)
    `{!Total (fun x y => cmp x y <> Gt), !Transitive (fun x y => cmp x y <> Gt)}
    (a : list A) :
  StronglySorted (fun x y => cmp x y <> Gt) (Array_sort cmp a).
Proof.
  unfold Array_sort. induction a as [|x a IH]; [constructor|].
  cbn [foldr]. apply sortInsert_sorted; assumption.
Qed.

Lemma elem_of_sorted_values {V} (cmp : V -> V -> comparison)
    (m : gmap (list N) V) (v : V) :
  v ∈ Array_sort cmp (Map_values m) <-> exists k, m !! k = Some v.
Proof.
  rewrite Array_sort_Permutation, Map_values_Permutation.
  rewrite list_elem_of_fmap. split.
  - intros ([k v'] & -> & Hin). exists k. apply elem_of_map_to_list, Hin.
  - intros [k Hk]. exists (k, v). split; [reflexivity|].
    apply elem_of_map_to_list, Hk.
Qed.

(** ** Listings *)

(** C7. Called by a caller with the [user] capability, [getPassages]
    returns, without changing the state, the stored passages (each stored
    value once) as a list sorted ascending by id under the lexicographic
    comparison of texts; the list is computed from the store of the state in
    which the call runs. *)
Theorem getPassages_sorted (s : State) (caller : Principal) :
  AccessControl.hasPermission (accessControlState s) caller user = true ->
  exists l,
    getPassages caller s = Ok l s /\
    l = Array_sort Passage.compare (Map_values (passages s)) /\
    StronglySorted (fun p q => Text_le (Passage.id p) (Passage.id q)) l /\
    l ≡ₚ (map_to_list (passages s)).*2 /\
    (forall p, p ∈ l <-> exists k, passages s !! k = Some p).
Proof.
  intros E. eexists. split.
  { unfold getPassages. munfold. rewrite E. reflexivity. }
  split; [reflexivity|]. split; [|split].
  - apply (Array_sort_sorted Passage.compare).
  - rewrite Array_sort_Permutation. apply Map_values_Permutation.
  - intros p. apply elem_of_sorted_values.
Qed.

Lemma getPassages_sorted_witness :
  exists l,
    getPassages root s_seeded = Ok l s_seeded /\
    List.map Passage.title l =
      [text "A Journey Through History"; text "Advancements in Technology";
       text "The Beauty of Nature"].
Proof.
  destruct (getPassages_sorted s_seeded root) as (l & E & Hl & _);
    [vm_compute; reflexivity|].
  exists l. split; [exact E|]. rewrite Hl. vm_compute. reflexivity.
Defined.

(** ** Seeding *)

Lemma hashPassword_length t : length (hashPassword t) = length t.
Proof. apply length_map. Qed.

Lemma derived_id_length_neq (a b suffix : Text) :
  length a <> length b ->
  hashPassword (a ++ suffix) <> hashPassword (b ++ suffix).
Proof.
  intros Hne E. apply (f_equal length) in E.
  rewrite !hashPassword_length, !length_app in E. lia.
Qed.

Lemma seeded_passages now :
  let e1 := passagesToAdd !!! 0%nat in
  let e2 := passagesToAdd !!! 1%nat in
  let e3 := passagesToAdd !!! 2%nat in
  let ps := foldl (seedInsert now) ∅ passagesToAdd in
  ps = <[Passage.id (seedPassage now e3) := seedPassage now e3]>
         (<[Passage.id (seedPassage now e2) := seedPassage now e2]>
            {[Passage.id (seedPassage now e1) := seedPassage now e1]}) /\
  size ps = 3%nat.
Proof.
  intros e1 e2 e3 ps.
  assert (H12 : Passage.id (seedPassage now e1) <> Passage.id (seedPassage now e2)).
  { apply derived_id_length_neq. vm_compute. discriminate. }
  assert (H13 : Passage.id (seedPassage now e1) <> Passage.id (seedPassage now e3)).
  { apply derived_id_length_neq. vm_compute. discriminate. }
  assert (H23 : Passage.id (seedPassage now e2) <> Passage.id (seedPassage now e3)).
  { apply derived_id_length_neq. vm_compute. discriminate. }
  assert (Hps : ps = <[Passage.id (seedPassage now e3) := seedPassage now e3]>
         (<[Passage.id (seedPassage now e2) := seedPassage now e2]>
            {[Passage.id (seedPassage now e1) := seedPassage now e1]})).
  { reflexivity. }
  split; [exact Hps|]. rewrite Hps.
  rewrite map_size_insert_None.
  2:{ rewrite lookup_insert_ne by assumption.
      rewrite lookup_singleton_ne by assumption. reflexivity. }
  rewrite map_size_insert_None.
  2:{ rewrite lookup_singleton_ne by assumption. reflexivity. }
  rewrite map_size_singleton. reflexivity.
Qed.

(** C9. For an administrator, [seedData] does nothing when the passage
    store is not empty and otherwise stores exactly the three sample
    passages, each under the id derived from its title and the clock
    reading; a second call, by any caller and at any clock reading, leaves
    the state of the first call as it is. *)
Theorem seedData_idempotent (s : State) (caller caller2 : Principal) (t1 t2 : Z) :
  AccessControl.hasPermission (accessControlState s) caller admin = true ->
  let s1 := run (seedData caller t1) s in
  run (seedData caller2 t2) s1 = s1 /\
  passages (run (seedData caller2 t2) s1) = passages s1 /\
  (size (passages s) <> 0%nat -> seedData caller t1 s = Ok tt s /\ s1 = s) /\
  (size (passages s) = 0%nat ->
     seedData caller t1 s = Ok tt s1 /\
     passages s1 = foldl (seedInsert t1) ∅ passagesToAdd /\
     size (passages s1) = 3%nat /\
     (forall e, e ∈ passagesToAdd ->
        passages s1 !! hashPassword (e.1.1 ++ Int_toText t1)
          = Some (seedPassage t1 e)) /\
     userProfiles s1 = userProfiles s /\ mobileToUser s1 = mobileToUser s /\
     testResults s1 = testResults s /\
     accessControlState s1 = accessControlState s).
Proof.
  intros Hadm s1.
  assert (Hfull : size (passages s) <> 0%nat -> seedData caller t1 s = Ok tt s /\ s1 = s).
  { intros Hs. subst s1. unfold run.
    rewrite seedData_nonempty by assumption. auto. }
  assert (Hempty : size (passages s) = 0%nat ->
            seedData caller t1 s = Ok tt s1 /\
            s1 = set_passages (fun _ => foldl (seedInsert t1) ∅ passagesToAdd) s).
  { intros Hs. subst s1. unfold run.
    rewrite seedData_empty by assumption.
    apply map_size_empty_inv in Hs. unfold set_passages. rewrite Hs. auto. }
  assert (Hsize : size (passages s1) <> 0%nat).
  { destruct (decide (size (passages s) = 0%nat)) as [Hs|Hs].
    - destruct (Hempty Hs) as [_ ->]. acc_simpl.
      rewrite (proj2 (seeded_passages t1)). discriminate.
    - destruct (Hfull Hs) as [_ ->]. exact Hs. }
  assert (Hsecond : run (seedData caller2 t2) s1 = s1).
  { unfold run.
    destruct (AccessControl.hasPermission (accessControlState s1) caller2 admin) eqn:E2.
    - rewrite seedData_nonempty by assumption. reflexivity.
    - rewrite seedData_unauthorized by assumption. reflexivity. }
  split; [exact Hsecond|]. split; [rewrite Hsecond; reflexivity|].
  split; [exact Hfull|].
  intros Hs. destruct (Hempty Hs) as [E Hs1]. split; [exact E|].
  rewrite Hs1. acc_simpl. repeat split.
  - apply seeded_passages.
  - intros e He. destruct (seeded_passages t1) as [-> _].
    assert (H12 : hashPassword ((passagesToAdd !!! 0%nat).1.1 ++ Int_toText t1)
                  <> hashPassword ((passagesToAdd !!! 1%nat).1.1 ++ Int_toText t1)).
    { apply derived_id_length_neq. vm_compute. discriminate. }
    assert (H13 : hashPassword ((passagesToAdd !!! 0%nat).1.1 ++ Int_toText t1)
                  <> hashPassword ((passagesToAdd !!! 2%nat).1.1 ++ Int_toText t1)).
    { apply derived_id_length_neq. vm_compute. discriminate. }
    assert (H23 : hashPassword ((passagesToAdd !!! 1%nat).1.1 ++ Int_toText t1)
                  <> hashPassword ((passagesToAdd !!! 2%nat).1.1 ++ Int_toText t1)).
    { apply derived_id_length_neq. vm_compute. discriminate. }
    unfold passagesToAdd in He.
    apply elem_of_cons in He as [->|He]; [|apply elem_of_cons in He as [->|He];
      [|apply list_elem_of_singleton in He as ->]].
    + rewrite lookup_insert_ne by (symmetry; exact H13).
      rewrite lookup_insert_ne by (symmetry; exact H12).
      apply lookup_singleton_eq.
    + rewrite lookup_insert_ne by (symmetry; exact H23).
      apply lookup_insert_eq.
    + apply lookup_insert_eq.
Qed.

Lemma seedData_idempotent_witness :
  run (seedData root 99) s_seeded = s_seeded /\ size (passages s_seeded) = 3%nat.
Proof.
  pose proof (seedData_idempotent s_admin root root 17 99) as H.
  destruct H as (H2 & _ & _ & Hempty); [vm_compute; reflexivity|].
  split; [exact H2|].
  destruct Hempty as (_ & _ & Hsz & _); [vm_compute; reflexivity|exact Hsz].
Defined.

(** ** Derived tokens and ids *)

Lemma text_inj a b : text a = text b -> a = b.
Proof.
  unfold text. intros E.
  rewrite <- (string_of_list_ascii_of_string a), <- (string_of_list_ascii_of_string b).
  f_equal. revert E. generalize (list_ascii_of_string a) (list_ascii_of_string b).
  intros l. induction l as [|x l IH]; intros [|y l']; cbn [List.map];
    try discriminate; [reflexivity|].
  intros [= Exy El]. f_equal; [|auto].
  rewrite <- (ascii_N_embedding x), <- (ascii_N_embedding y), Exy. reflexivity.
Qed.

Lemma string_of_int_inj d d' :
  NilEmpty.string_of_int d = NilEmpty.string_of_int d' -> d = d'.
Proof.
  intros E. apply (f_equal NilEmpty.int_of_string) in E.
  rewrite !NilEmpty.isi in E. congruence.
Qed.

Lemma Int_toText_inj x y : Int_toText x = Int_toText y -> x = y.
Proof.
  unfold Int_toText. intros E.
  apply DecimalZ.to_int_inj, string_of_int_inj, text_inj, E.
Qed.

Lemma string_of_uint_numeric d :
  Forall numeric (text (NilEmpty.string_of_uint d)).
Proof.
  induction d; cbn; constructor; try assumption; unfold numeric; lia.
Qed.

Lemma Int_toText_numeric x : Forall numeric (Int_toText x).
Proof.
  unfold Int_toText. destruct (Z.to_int x) as [d|d]; cbn [NilEmpty.string_of_int].
  - apply string_of_uint_numeric.
  - change (text (String "-" (NilEmpty.string_of_uint d)))
      with (45 :: text (NilEmpty.string_of_uint d)).
    constructor; [unfold numeric; lia|apply string_of_uint_numeric].
Qed.

Lemma Int_toText_nonempty x : Int_toText x <> [].
Proof.
  unfold Int_toText. destruct x as [|p|p]; cbn [Z.to_int NilEmpty.string_of_int].
  - discriminate.
  - pose proof (DecimalPos.Unsigned.to_uint_nonnil p) as Hp.
    destruct (Pos.to_uint p); [congruence|discriminate..].
  - discriminate.
Qed.

Lemma hash_char_numeric c : numeric c -> hash_char c = c + 3.
Proof.
  unfold numeric, hash_char. intros Hc. cbv zeta.
  rewrite N.mod_small by lia.
  destruct (N.ltb_spec (c + 3) 33); [lia|reflexivity].
Qed.

Lemma hashPassword_numeric_inj a b :
  Forall numeric a -> Forall numeric b ->
  hashPassword a = hashPassword b -> a = b.
Proof.
  intros Ha. revert b. induction Ha as [|x a Hx Ha IH]; intros b Hb.
  - destruct b; [reflexivity|discriminate].
  - destruct Hb as [|y b Hy Hb]; [discriminate|].
    cbn [hashPassword List.map]. intros [= Exy E].
    rewrite !hash_char_numeric in Exy by assumption.
    f_equal; [lia|]. apply IH; assumption.
Qed.

(** Same prefix, different clock readings: different derived texts. *)
Lemma derived_distinct (prefix : Text) (t1 t2 : Z) :
  t1 <> t2 ->
  hashPassword (prefix ++ Int_toText t1) <> hashPassword (prefix ++ Int_toText t2).
Proof.
  intros Hne E. apply Hne, Int_toText_inj.
  unfold hashPassword in E. rewrite !map_app in E.
  apply app_inv_head in E.
  apply hashPassword_numeric_inj; auto using Int_toText_numeric.
Qed.

Lemma derived_nonempty (prefix : Text) (t : Z) :
  hashPassword (prefix ++ Int_toText t) <> [].
Proof.
  intros E. apply (f_equal length) in E.
  rewrite hashPassword_length, length_app in E. cbn [length] in E.
  pose proof (Int_toText_nonempty t) as Hne.
  destruct (Int_toText t); [congruence|]. cbn [length] in E. lia.
Qed.

(** ** Single active session *)

Lemma storedSession_sessionOf s m p :
  mobileToUser s !! m = Some p -> storedSession s m = sessionOf s p.
Proof.
  intros E. unfold storedSession, sessionOf. rewrite E. cbn.
  destruct (userProfiles s !! p); reflexivity.
Qed.

Lemma sessionOf_insert s q profile p T :
  sessionOf s p <> Some T ->
  (q = p -> UserProfile.sessionId profile <> T) ->
  sessionOf (set_userProfiles <[q := profile]> s) p <> Some T.
Proof.
  unfold sessionOf. acc_simpl. intros Hold Hnew.
  destruct (decide (q = p)) as [->|Hne].
  - rewrite lookup_insert_eq. cbn. intros [= E]. exact (Hnew eq_refl E).
  - rewrite lookup_insert_ne by assumption. exact Hold.
Qed.

Lemma exec_session_kept msg s p T :
  T <> [] ->
  sessionOf s p <> Some T ->
  ~ stores_session p T s msg ->
  sessionOf (exec msg s) p <> Some T.
Proof.
  intros HT Hold Hmsg.
  destruct msg as [caller now call]. unfold stores_session in Hmsg.
  unfold exec. cbn [msg_caller msg_now msg_call] in *.
  destruct call.
  - unfold saveCallerUserProfile. run_cases; try assumption.
    apply sessionOf_insert; [assumption|]. intros -> E. apply Hmsg. auto.
  - destruct (mobileToUser s !! mobile) as [q|] eqn:E.
    + unfold run. rewrite registerUser_taken by eauto. assumption.
    + unfold run. rewrite registerUser_fresh by assumption.
      change (sessionOf (set_userProfiles
                <[caller := UserProfile.mk name mobile (hashPassword password) []]> s) p
              <> Some T).
      apply sessionOf_insert; [assumption|]. intros _. cbn. congruence.
  - unfold login. run_cases; try assumption.
    apply sessionOf_insert; [assumption|]. intros -> E. apply Hmsg.
    split; [reflexivity|]. eauto.
  - unfold run. rewrite checkSessionValid_eq. assumption.
  - unfold logout. run_cases; try assumption.
    apply sessionOf_insert; [assumption|]. intros _. cbn. congruence.
  - unfold addPassage. run_cases; assumption.
  - unfold updatePassage. run_cases; assumption.
  - unfold deletePassage. run_cases; assumption.
  - unfold submitTestResult. run_cases; assumption.
  - unfold run.
    destruct (AccessControl.hasPermission (accessControlState s) caller admin) eqn:E.
    + destruct (decide (size (passages s) = 0%nat)) as [Hs|Hs].
      * rewrite seedData_empty by assumption. assumption.
      * rewrite seedData_nonempty by assumption. assumption.
    + rewrite seedData_unauthorized by assumption. assumption.
  - unfold addAdmin. run_cases; try assumption.
    change (sessionOf (set_userProfiles
              <[caller := UserProfile.mk (text "admin") adminMobile
                            (hashPassword (text "admin123")) []]> s) p
            <> Some T).
    apply sessionOf_insert; [assumption|]. intros _. cbn. congruence.
  - unfold run. munfold. assumption.
Qed.

Lemma execs_session_kept msgs s p T :
  T <> [] ->
  sessionOf s p <> Some T ->
  never_stores p T s msgs ->
  sessionOf (execs msgs s) p <> Some T.
Proof.
  intros HT. revert s. induction msgs as [|msg msgs IH]; intros s Hold Hn.
  - exact Hold.
  - destruct Hn as [Hmsg Hrest]. cbn [execs foldl].
    apply IH; [|exact Hrest]. apply exec_session_kept; assumption.
Qed.

Lemma logout_ok caller s m p profile :
  mobileToUser s !! m = Some p ->
  userProfiles s !! p = Some profile ->
  caller = p \/ AccessControl.isAdmin (accessControlState s) caller = true ->
  logout caller m s =
    Ok tt (set_userProfiles <[p := UserProfile.with_sessionId profile []]> s).
Proof.
  intros E1 E2 Hwho. unfold logout. munfold. rewrite E1, E2.
  assert (Hgate : negb (bool_decide (caller = p))
                  && negb (AccessControl.isAdmin (accessControlState s) caller)
                  = false).
  { destruct Hwho as [-> | ->].
    - rewrite bool_decide_eq_true_2 by reflexivity. reflexivity.
    - apply andb_false_r. }
  rewrite Hgate. reflexivity.
Qed.

Lemma login_stores now m pw s r s' :
  login now m pw s = Ok r s' ->
  storedSession s' m = Some (login_sessionId r).
Proof.
  unfold login. munfold.
  destruct (mobileToUser s !! m) as [p|] eqn:Ei; [|discriminate].
  destruct (userProfiles s !! p) as [profile|] eqn:Ep; [|discriminate].
  destruct (negb _); [discriminate|].
  intros [= <- <-]. unfold storedSession. acc_simpl. rewrite Ei. cbn.
  rewrite lookup_insert_eq. reflexivity.
Qed.

Lemma logout_clears caller m s s' :
  logout caller m s = Ok tt s' -> storedSession s' m = Some [].
Proof.
  unfold logout. munfold.
  destruct (mobileToUser s !! m) as [p|] eqn:Ei; [|discriminate].
  destruct (negb _ && negb _); [discriminate|].
  destruct (userProfiles s !! p) as [profile|] eqn:Ep; [|discriminate].
  intros [= <-]. unfold storedSession. acc_simpl. rewrite Ei. cbn.
  rewrite lookup_insert_eq. reflexivity.
Qed.

(** C2, as stated, fails. Two logins of Alice that run at the same clock
    reading mint the same token, so after the second login the token of the
    first is still accepted. And after a second login at a later reading has
    replaced the token, the owner can write the old token back with
    [saveCallerUserProfile], without any login issuing it again. *)
Lemma stale_token_accepted :
  (login 5 mobileA pw1 s_registered
     = Ok (mkLoginOk (text "Alice") mobileA token5) s_login_5 /\
   login 5 mobileA pw1 s_login_5
     = Ok (mkLoginOk (text "Alice") mobileA token5) s_login_5_5 /\
   checkSessionValid mobileA token5 s_login_5_5 = Ok true s_login_5_5) /\
  (checkSessionValid mobileA token5 s_login_5_6 = Ok false s_login_5_6 /\
   saveCallerUserProfile alice profile_with_token5 s_login_5_6 = Ok tt s_saved /\
   checkSessionValid mobileA token5 s_saved = Ok true s_saved).
Proof. repeat split; vm_compute; reflexivity. Qed.

(** C2, amended. Let [T] be a non-empty token that is not the stored
    session token of the account of [m] (it has been replaced by a login
    that minted another value, or cleared by a logout: a successful login
    stores exactly the token it returns, a successful logout stores the
    empty token). Then [checkSessionValid m T] is false after every sequence
    of messages in which no login mints [T] for that account and the owner
    does not save a profile carrying [T]. In particular, after registering,
    a login yielding [T1] and a second login at a different clock reading
    yielding [T2], the tokens differ and [T1] is rejected while [T2] is
    accepted. *)
Theorem stale_token_rejected (s : State) (m : Text) (p : Principal) (T : Text) :
  (T <> [] ->
   mobileToUser s !! m = Some p ->
   storedSession s m <> Some T ->
   forall msgs,
     never_stores p T s msgs ->
     checkSessionValid m T (execs msgs s) = Ok false (execs msgs s)) /\
  (forall now pw r s',
     login now m pw s = Ok r s' ->
     login_sessionId r <> [] /\ storedSession s' m = Some (login_sessionId r)) /\
  (forall caller s',
     logout caller m s = Ok tt s' -> storedSession s' m = Some []) /\
  (forall caller name pw t1 t2,
     mobileToUser s !! m = None ->
     t1 <> t2 ->
     exists s1 s2 s3 T1 T2,
       registerUser caller name m pw s = Ok (text "OK") s1 /\
       login t1 m pw s1 = Ok (mkLoginOk name m T1) s2 /\
       login t2 m pw s2 = Ok (mkLoginOk name m T2) s3 /\
       T1 <> [] /\ T1 <> T2 /\
       checkSessionValid m T1 s3 = Ok false s3 /\
       checkSessionValid m T2 s3 = Ok true s3).
Proof.
  split; [|split; [|split]].
  - intros HT Ei Hold msgs Hn.
    rewrite checkSessionValid_stored. f_equal. apply bool_decide_eq_false.
    rewrite (storedSession_sessionOf _ m p) by (apply execs_index_stable, Ei).
    apply execs_session_kept; [assumption| |assumption].
    rewrite <- (storedSession_sessionOf s m p) by assumption. assumption.
  - intros now pw r s' E. split; [|exact (login_stores now m pw s r s' E)].
    revert E. unfold login. munfold.
    destruct (mobileToUser s !! m) as [q|]; [|discriminate].
    destruct (userProfiles s !! q) as [profile|]; [|discriminate].
    destruct (negb _); [discriminate|].
    intros [= <- _]. cbn [login_sessionId]. apply derived_nonempty.
  - intros caller s'. apply logout_clears.
  - intros caller name pw t1 t2 Ei Hne.
    set (profile := UserProfile.mk name m (hashPassword pw) []).
    set (T1 := hashPassword (m ++ Int_toText t1)).
    set (T2 := hashPassword (m ++ Int_toText t2)).
    pose proof (registerUser_fresh caller s name m pw Ei) as Hreg.
    set (s1 := {| userProfiles := <[caller := profile]> (userProfiles s);
                  mobileToUser := <[m := caller]> (mobileToUser s);
                  passages := passages s;
                  testResults := testResults s;
                  accessControlState := <[caller := user]> (accessControlState s) |})
      in *.
    assert (Hi1 : mobileToUser s1 !! m = Some caller) by apply lookup_insert_eq.
    assert (Hp1 : userProfiles s1 !! caller = Some profile) by apply lookup_insert_eq.
    pose proof (login_ok t1 s1 m pw caller profile Hi1 Hp1 eq_refl) as Hl1.
    cbv zeta in Hl1. cbn [UserProfile.name UserProfile.mobile profile] in Hl1.
    fold T1 in Hl1.
    set (s2 := set_userProfiles
                 <[caller := UserProfile.with_sessionId profile T1]> s1) in *.
    assert (Hi2 : mobileToUser s2 !! m = Some caller) by exact Hi1.
    assert (Hp2 : userProfiles s2 !! caller
                  = Some (UserProfile.with_sessionId profile T1))
      by apply lookup_insert_eq.
    pose proof (login_ok t2 s2 m pw caller _ Hi2 Hp2 eq_refl) as Hl2.
    cbv zeta in Hl2.
    cbn [UserProfile.name UserProfile.mobile UserProfile.with_sessionId profile]
      in Hl2.
    fold T2 in Hl2.
    assert (Hdiff : T1 <> T2) by (apply derived_distinct, Hne).
    pose proof (login_stores _ _ _ _ _ _ Hl2) as Hst. cbn [login_sessionId] in Hst.
    eexists s1, s2, _, T1, T2.
    split; [exact Hreg|]. split; [exact Hl1|]. split; [exact Hl2|].
    split; [apply derived_nonempty|]. split; [exact Hdiff|].
    rewrite !checkSessionValid_stored, Hst. split; f_equal.
    + apply bool_decide_eq_false. congruence.
    + apply bool_decide_eq_true. reflexivity.
Qed.

Lemma stale_token_rejected_witness :
  (let msgs := [mkMessage alice 7 (CallLogout mobileA);
                mkMessage bob 8 (CallLogin mobileA pw1)] in
   checkSessionValid mobileA token5 (execs msgs s_login_5_6)
     = Ok false (execs msgs s_login_5_6)) /\
  (exists s1 s2 s3 T1 T2,
     registerUser alice (text "Alice") mobileA pw1 initial = Ok (text "OK") s1 /\
     login 5 mobileA pw1 s1 = Ok (mkLoginOk (text "Alice") mobileA T1) s2 /\
     login 6 mobileA pw1 s2 = Ok (mkLoginOk (text "Alice") mobileA T2) s3 /\
     T1 <> [] /\ T1 <> T2 /\
     checkSessionValid mobileA T1 s3 = Ok false s3 /\
     checkSessionValid mobileA T2 s3 = Ok true s3).
Proof.
  split.
  - apply (proj1 (stale_token_rejected s_login_5_6 mobileA alice token5)).
    + vm_compute. discriminate.
    + vm_compute. reflexivity.
    + vm_compute. discriminate.
    + cbn [never_stores]. split; [intros []|]. split; [|exact I].
      intros (_ & profile & Ep & E).
      vm_compute in Ep. injection Ep as <-.
      vm_compute in E. discriminate E.
  - apply (proj2 (proj2 (proj2 (stale_token_rejected initial mobileA alice []))));
      [vm_compute; reflexivity|lia].
Defined.

(** ** Test results *)

Lemma submitTestResult_eq caller now un um pt w a mi s :
  AccessControl.hasPermission (accessControlState s) caller user = true ->
  submitTestResult caller now un um pt w a mi s =
    Ok tt (set_testResults
             <[hashPassword (um ++ Int_toText now) :=
                 TestResult.mk (hashPassword (um ++ Int_toText now))
                               un um pt w a mi now]> s).
Proof. intros E. unfold submitTestResult. munfold. rewrite E. reflexivity. Qed.

Lemma getTestResults_eq caller s :
  AccessControl.hasPermission (accessControlState s) caller user = true ->
  getTestResults caller s =
    Ok (Array_sort TestResult.compareByTime (Map_values (testResults s))) s.
Proof. intros E. unfold getTestResults. munfold. rewrite E. reflexivity. Qed.

(** In a list sorted by timestamp, an element with a strictly smaller
    timestamp stands before one with a larger timestamp. *)
Lemma sorted_earlier_first (l : list TestResult.t) (r1 r2 : TestResult.t) :
  StronglySorted TestResult_le l ->
  r1 ∈ l -> r2 ∈ l ->
  (TestResult.timestamp r1 < TestResult.timestamp r2)%Z ->
  exists l1 l2 l3, l = l1 ++ r1 :: l2 ++ r2 :: l3.
Proof.
  intros Hsorted H1 H2 Hlt.
  apply list_elem_of_split in H2 as (a & b & ->).
  pose proof (StronglySorted_app_1_r _ _ _ Hsorted) as Hb.
  apply StronglySorted_cons in Hb as [Hb _].
  apply elem_of_app in H1 as [H1|H1].
  - apply list_elem_of_split in H1 as (l1 & l2 & ->).
    exists l1, l2, b. rewrite <- app_assoc. reflexivity.
  - exfalso. apply elem_of_cons in H1 as [->|H1]; [lia|].
    rewrite Forall_forall in Hb. specialize (Hb r1 H1).
    pose proof (proj1 (TestResult_le_iff r2 r1) Hb). lia.
Qed.

(** C8, as stated, fails. Two submissions of Alice that run at the same
    clock reading derive the same id, the second replaces the first in the
    store, and the listing shows the second result only. *)
Lemma same_instant_results_not_both_listed :
  submitTestResult alice 5 (text "Alice") mobileA (text "P1") 40 90 3 s_user
    = Ok tt s_submit_1 /\
  submitTestResult alice 5 (text "Alice") mobileA (text "P2") 55 95 1 s_submit_1
    = Ok tt s_submit_2 /\
  getTestResults alice s_submit_1 = Ok [result_first] s_submit_1 /\
  getTestResults alice s_submit_2 = Ok [result_second] s_submit_2 /\
  result_first <> result_second.
Proof. repeat split; try (vm_compute; reflexivity). discriminate. Qed.

(** C8, amended. Called by a caller with the [user] capability,
    [getTestResults] returns, without changing the state, the stored results
    (each stored value once) sorted ascending by timestamp. A submission
    stores a result whose timestamp is the clock reading of the call; when
    two submissions run one after the other at strictly increasing clock
    readings and derive different ids (as they do for equal mobiles), both
    results are listed, the first before the second. *)
Theorem getTestResults_sorted (s : State) (viewer c1 c2 : Principal)
    (t1 t2 : Z) (un1 um1 pt1 un2 um2 pt2 : Text) (w1 a1 mi1 w2 a2 mi2 : N) :
  AccessControl.hasPermission (accessControlState s) viewer user = true ->
  (exists l,
     getTestResults viewer s = Ok l s /\
     StronglySorted
       (fun r r' => (TestResult.timestamp r <= TestResult.timestamp r')%Z) l /\
     l ≡ₚ (map_to_list (testResults s)).*2 /\
     (forall r, r ∈ l <-> exists k, testResults s !! k = Some r)) /\
  (AccessControl.hasPermission (accessControlState s) c1 user = true ->
   AccessControl.hasPermission (accessControlState s) c2 user = true ->
   (t1 < t2)%Z ->
   um1 = um2 \/
     hashPassword (um1 ++ Int_toText t1) <> hashPassword (um2 ++ Int_toText t2) ->
   let r1 := TestResult.mk (hashPassword (um1 ++ Int_toText t1))
                           un1 um1 pt1 w1 a1 mi1 t1 in
   let r2 := TestResult.mk (hashPassword (um2 ++ Int_toText t2))
                           un2 um2 pt2 w2 a2 mi2 t2 in
   exists s1 s2 l l1 l2 l3,
     submitTestResult c1 t1 un1 um1 pt1 w1 a1 mi1 s = Ok tt s1 /\
     submitTestResult c2 t2 un2 um2 pt2 w2 a2 mi2 s1 = Ok tt s2 /\
     getTestResults viewer s2 = Ok l s2 /\
     l = l1 ++ r1 :: l2 ++ r2 :: l3).
Proof.
  intros Hv. split.
  - eexists. split; [apply getTestResults_eq, Hv|]. split; [|split].
    + apply (Array_sort_sorted TestResult.compareByTime).
    + rewrite Array_sort_Permutation. apply Map_values_Permutation.
    + intros r. apply elem_of_sorted_values.
  - intros H1 H2 Hlt Hids r1 r2.
    assert (Hne : TestResult.id r1 <> TestResult.id r2).
    { destruct Hids as [->|Hids]; [|exact Hids].
      apply derived_distinct. lia. }
    pose proof (submitTestResult_eq c1 t1 un1 um1 pt1 w1 a1 mi1 s H1) as E1.
    fold r1 in E1. change (hashPassword (um1 ++ Int_toText t1)) with (TestResult.id r1) in E1.
    set (s1 := set_testResults <[TestResult.id r1 := r1]> s) in *.
    pose proof (submitTestResult_eq c2 t2 un2 um2 pt2 w2 a2 mi2 s1 H2) as E2.
    fold r2 in E2. change (hashPassword (um2 ++ Int_toText t2)) with (TestResult.id r2) in E2.
    set (s2 := set_testResults <[TestResult.id r2 := r2]> s1) in *.
    pose proof (getTestResults_eq viewer s2 Hv) as E3.
    set (l := Array_sort TestResult.compareByTime (Map_values (testResults s2))) in *.
    assert (Hin1 : r1 ∈ l).
    { apply elem_of_sorted_values. exists (TestResult.id r1).
      subst s2 s1. acc_simpl. rewrite lookup_insert_ne by congruence.
      apply lookup_insert_eq. }
    assert (Hin2 : r2 ∈ l).
    { apply elem_of_sorted_values. exists (TestResult.id r2).
      subst s2. acc_simpl. apply lookup_insert_eq. }
    destruct (sorted_earlier_first l r1 r2) as (l1 & l2 & l3 & Hl);
      [apply (Array_sort_sorted TestResult.compareByTime)|assumption..|].
    exists s1, s2, l, l1, l2, l3. auto.
Qed.

Lemma getTestResults_sorted_witness :
  exists s1 s2 l l1 l2 l3,
    submitTestResult alice 5 (text "Alice") mobileA (text "P1") 40 90 3 s_user
      = Ok tt s1 /\
    submitTestResult alice 6 (text "Alice") mobileA (text "P2") 55 95 1 s1
      = Ok tt s2 /\
    getTestResults alice s2 = Ok l s2 /\
    l = l1 ++ result_first
           :: l2 ++ TestResult.mk (hashPassword (mobileA ++ Int_toText 6))
                      (text "Alice") mobileA (text "P2") 55 95 1 6 :: l3.
Proof.
  apply (proj2 (getTestResults_sorted s_user alice alice alice 5 6
                  (text "Alice") mobileA (text "P1")
                  (text "Alice") mobileA (text "P2") 40 90 3 55 95 1
                  ltac:(vm_compute; reflexivity))).
  - vm_compute. reflexivity.
  - vm_compute. reflexivity.
  - lia.
  - left. reflexivity.
Defined.

(** * Further properties of the actor *)

(** ** The credential transform *)

Lemma hash_char_range c : 33 <= hash_char c <= 125.
Proof.
  unfold hash_char. cbv zeta.
  pose proof (N.mod_upper_bound (c + 3) 126 ltac:(discriminate)) as Hlt.
  destruct (N.ltb_spec ((c + 3) mod 126) 33); lia.
Qed.

Lemma hash_char_shift c : 30 <= c <= 122 -> hash_char c = c + 3.
Proof.
  unfold hash_char. intros Hc. cbv zeta.
  rewrite N.mod_small by lia.
  destruct (N.ltb_spec (c + 3) 33); [lia|reflexivity].
Qed.

(** X1. [hashPassword] keeps the length of its input and every code point
    of its output lies between 33 and 125, whatever the input is. *)
Theorem hashPassword_printable (password : Text) :
  length (hashPassword password) = length password /\
  Forall (fun c => 33 <= c <= 125) (hashPassword password).
Proof.
  split; [apply hashPassword_length|].
  unfold hashPassword. apply Forall_forall. intros c Hc.
  apply list_elem_of_fmap in Hc as (x & -> & _). apply hash_char_range.
Qed.

(** X2. On texts whose code points all lie between 30 and 122 (digits,
    letters and most ASCII punctuation) [hashPassword] shifts every code
    point by three, so two such texts with the same hash are equal. *)
Theorem hashPassword_shift_injective (a b : Text) :
  Forall (fun c => 30 <= c <= 122) a ->
  Forall (fun c => 30 <= c <= 122) b ->
  hashPassword a = List.map (fun c => c + 3) a /\
  (hashPassword a = hashPassword b -> a = b).
Proof.
  intros Ha Hb.
  assert (Hshift : forall t, Forall (fun c => 30 <= c <= 122) t ->
                     hashPassword t = List.map (fun c => c + 3) t).
  { intros t Ht. unfold hashPassword. induction Ht as [|x t Hx _ IH]; [reflexivity|].
    cbn [List.map]. rewrite hash_char_shift by assumption. f_equal. exact IH. }
  split; [apply Hshift, Ha|].
  rewrite (Hshift a Ha), (Hshift b Hb). clear Hshift.
  revert b Hb. induction Ha as [|x a _ _ IH]; intros b Hb E.
  - destruct b; [reflexivity|discriminate].
  - destruct Hb as [|y b _ Hb]; [discriminate|].
    cbn [List.map] in E. injection E as Exy E.
    f_equal; [lia|apply IH; assumption].
Qed.

Lemma hashPassword_shift_injective_witness :
  hashPassword (text "pw1") = text "sz4" /\
  (hashPassword (text "pw1") = hashPassword (text "pw1") -> text "pw1" = text "pw1").
Proof.
  destruct (hashPassword_shift_injective (text "pw1") (text "pw1")) as [E H].
  - vm_compute. repeat constructor; intros [=].
  - vm_compute. repeat constructor; intros [=].
  - split; [rewrite E; vm_compute; reflexivity|exact H].
Defined.

(** X3. [login] only looks at the hash of the password: two passwords with
    the same hash give the same outcome in every state. The transform sends
    every code point up to 29 and the code points 123 to 126 (the braces,
    the bar and the tilde) to the one code point 33, so a password that
    differs from the registered one only in such code points is accepted. *)
Theorem login_same_hash (s : State) (now : Z) (mobile pw pw' : Text) :
  (forall c, c <= 29 \/ 123 <= c <= 126 -> hash_char c = 33) /\
  (forall prefix suffix c c',
     hash_char c = 33 -> hash_char c' = 33 ->
     hashPassword (prefix ++ c :: suffix) = hashPassword (prefix ++ c' :: suffix)) /\
  (hashPassword pw = hashPassword pw' ->
   login now mobile pw' s = login now mobile pw s).
Proof.
  split; [|split].
  - intros c Hc. unfold hash_char. cbv zeta.
    assert (Hmod : (c + 3) mod 126 < 33).
    { destruct Hc as [Hc|Hc].
      - rewrite N.mod_small by lia. lia.
      - replace (c + 3) with ((c - 123) + 1 * 126) by lia.
        rewrite N.Div0.mod_add, N.mod_small by lia. lia. }
    apply N.ltb_lt in Hmod. rewrite Hmod. reflexivity.
  - intros prefix suffix c c' Hc Hc'. unfold hashPassword.
    rewrite !map_app. cbn [List.map]. rewrite Hc, Hc'. reflexivity.
  - intros E. unfold login. munfold. rewrite E. reflexivity.
Qed.

Lemma login_same_hash_witness :
  text "pass{" <> text "pass~" /\
  login 5 mobileA (text "pass~")
        (run (registerUser alice (text "Alice") mobileA (text "pass{")) initial)
  = login 5 mobileA (text "pass{")
          (run (registerUser alice (text "Alice") mobileA (text "pass{")) initial) /\
  exists r s',
    login 5 mobileA (text "pass~")
          (run (registerUser alice (text "Alice") mobileA (text "pass{")) initial)
    = Ok r s'.
Proof.
  split; [vm_compute; discriminate|]. split.
  - apply (login_same_hash
             (run (registerUser alice (text "Alice") mobileA (text "pass{")) initial)
             5 mobileA (text "pass{") (text "pass~")).
    vm_compute. reflexivity.
  - eexists _, _. vm_compute. reflexivity.
Defined.

(** ** The passage store *)

Lemma addPassage_eq caller now title content tm s :
  AccessControl.hasPermission (accessControlState s) caller admin = true ->
  addPassage caller now title content tm s =
    Ok (hashPassword (title ++ Int_toText now))
       (set_passages
          <[hashPassword (title ++ Int_toText now) :=
              Passage.mk (hashPassword (title ++ Int_toText now)) title content tm]> s).
Proof. intros E. unfold addPassage. munfold. rewrite E. reflexivity. Qed.

Lemma addPassage_unauthorized caller now title content tm s :
  AccessControl.hasPermission (accessControlState s) caller admin = false ->
  addPassage caller now title content tm s
    = Trap "Unauthorized: Only admins can add passages".
Proof. intros E. unfold addPassage. munfold. rewrite E. reflexivity. Qed.

Lemma getPassages_eq caller s :
  AccessControl.hasPermission (accessControlState s) caller user = true ->
  getPassages caller s =
    Ok (Array_sort Passage.compare (Map_values (passages s))) s.
Proof. intros E. unfold getPassages. munfold. rewrite E. reflexivity. Qed.

Lemma admin_has_user st caller :
  AccessControl.hasPermission st caller admin = true ->
  AccessControl.hasPermission st caller user = true.
Proof. cbn [AccessControl.hasPermission]. intros ->. apply orb_true_r. Qed.

(** X4. [addPassage] by a caller without the [admin] capability traps and
    changes nothing. By an administrator it returns the id derived from the
    title and the clock reading and stores the passage under that id; the
    other passages and the other stores are untouched, and a following
    [getPassages] lists the new passage. *)
Theorem addPassage_contract (s : State) (caller : Principal) (now : Z)
    (title content : Text) (tm : N) :
  let id := hashPassword (title ++ Int_toText now) in
  let passage := Passage.mk id title content tm in
  (AccessControl.hasPermission (accessControlState s) caller admin = false ->
     addPassage caller now title content tm s
       = Trap "Unauthorized: Only admins can add passages" /\
     run (addPassage caller now title content tm) s = s) /\
  (AccessControl.hasPermission (accessControlState s) caller admin = true ->
     exists s',
       addPassage caller now title content tm s = Ok id s' /\
       passages s' !! id = Some passage /\
       (forall k, k <> id -> passages s' !! k = passages s !! k) /\
       userProfiles s' = userProfiles s /\ mobileToUser s' = mobileToUser s /\
       testResults s' = testResults s /\
       accessControlState s' = accessControlState s /\
       exists l, getPassages caller s' = Ok l s' /\ passage ∈ l).
Proof.
  intros id passage. split.
  - intros E. unfold run. rewrite addPassage_unauthorized by assumption. auto.
  - intros E. eexists. split; [apply addPassage_eq, E|]. acc_simpl.
    fold id. fold passage.
    split; [apply lookup_insert_eq|].
    split; [intros k Hk; apply lookup_insert_ne; congruence|].
    repeat split.
    eexists. split; [apply getPassages_eq, admin_has_user, E|].
    apply elem_of_sorted_values. exists id. acc_simpl. apply lookup_insert_eq.
Qed.

Lemma addPassage_contract_witness :
  addPassage alice 17 (text "Title") (text "Body") 3 s_admin
    = Trap "Unauthorized: Only admins can add passages" /\
  exists s',
    addPassage root 17 (text "Title") (text "Body") 3 s_admin
      = Ok (hashPassword (text "Title17")) s' /\
    passages s' !! hashPassword (text "Title17")
      = Some (Passage.mk (hashPassword (text "Title17")) (text "Title") (text "Body") 3).
Proof.
  pose proof (addPassage_contract s_admin alice 17 (text "Title") (text "Body") 3)
    as [Hno _].
  pose proof (addPassage_contract s_admin root 17 (text "Title") (text "Body") 3)
    as [_ Hyes].
  split.
  - apply Hno. vm_compute. reflexivity.
  - destruct Hyes as (s' & E & Hp & _); [vm_compute; reflexivity|].
    exists s'. split; [exact E|exact Hp].
Defined.

(** X5. Passage ids are derived, not checked. Two [addPassage] calls of an
    administrator with the same title: at the same clock reading the second
    passage replaces the first (one entry); at different clock readings the
    ids differ and both passages are stored. *)
Theorem addPassage_twice (s : State) (caller : Principal) (t1 t2 : Z)
    (title c1 c2 : Text) (tm1 tm2 : N) :
  AccessControl.hasPermission (accessControlState s) caller admin = true ->
  let s2 := run (addPassage caller t2 title c2 tm2)
                (run (addPassage caller t1 title c1 tm1) s) in
  let id1 := hashPassword (title ++ Int_toText t1) in
  let id2 := hashPassword (title ++ Int_toText t2) in
  (t1 = t2 ->
     passages s2 = <[id2 := Passage.mk id2 title c2 tm2]> (passages s)) /\
  (t1 <> t2 ->
     id1 <> id2 /\
     passages s2 !! id1 = Some (Passage.mk id1 title c1 tm1) /\
     passages s2 !! id2 = Some (Passage.mk id2 title c2 tm2)).
Proof.
  intros E s2 id1 id2.
  assert (Hs2 : s2 = set_passages <[id2 := Passage.mk id2 title c2 tm2]>
                       (set_passages <[id1 := Passage.mk id1 title c1 tm1]> s)).
  { subst s2. unfold run. rewrite (addPassage_eq caller t1) by assumption.
    rewrite (addPassage_eq caller t2) by assumption. reflexivity. }
  rewrite Hs2. acc_simpl. split.
  - intros Ht. subst id1 id2. rewrite Ht. apply insert_insert_eq.
  - intros Ht. assert (Hne : id1 <> id2) by (apply derived_distinct, Ht).
    split; [exact Hne|]. split.
    + rewrite lookup_insert_ne by congruence. apply lookup_insert_eq.
    + apply lookup_insert_eq.
Qed.

Lemma addPassage_twice_witness :
  size (passages (run (addPassage root 17 (text "Title") (text "B2") 4)
                      (run (addPassage root 17 (text "Title") (text "B1") 3) s_admin)))
    = 1%nat /\
  size (passages (run (addPassage root 18 (text "Title") (text "B2") 4)
                      (run (addPassage root 17 (text "Title") (text "B1") 3) s_admin)))
    = 2%nat.
Proof.
  pose proof (addPassage_twice s_admin root 17 17 (text "Title") (text "B1") (text "B2") 3 4)
    as H1.
  pose proof (addPassage_twice s_admin root 17 18 (text "Title") (text "B1") (text "B2") 3 4)
    as H2.
  cbv zeta in H1, H2.
  destruct H1 as [H1 _]; [vm_compute; reflexivity|].
  destruct H2 as [_ H2]; [vm_compute; reflexivity|].
  split.
  - rewrite (H1 eq_refl). vm_compute. reflexivity.
  - destruct (H2 ltac:(lia)) as (_ & _ & _). vm_compute. reflexivity.
Defined.

Lemma exec_PassageEffect msg s : PassageEffect s (exec msg s).
Proof.
  destruct msg as [caller now call]. unfold exec. cbn [msg_caller msg_now msg_call].
  destruct call.
  - unfold saveCallerUserProfile. run_cases; apply passages_same; reflexivity.
  - destruct (mobileToUser s !! mobile) as [p|] eqn:E; unfold run.
    + rewrite registerUser_taken by eauto. apply passages_same; reflexivity.
    + rewrite registerUser_fresh by assumption. apply passages_same; reflexivity.
  - unfold login. run_cases; apply passages_same; reflexivity.
  - unfold run. rewrite checkSessionValid_eq. apply passages_same; reflexivity.
  - unfold logout. run_cases; apply passages_same; reflexivity.
  - unfold addPassage. run_cases; try (apply passages_same; reflexivity).
    apply (passages_added _ _
             (Passage.mk (hashPassword (title ++ Int_toText now)) title content timeMinutes)).
    reflexivity.
  - unfold updatePassage. run_cases; try (apply passages_same; reflexivity).
    eapply passages_updated; [eassumption|reflexivity].
  - unfold deletePassage. run_cases; try (apply passages_same; reflexivity).
    eapply passages_deleted. reflexivity.
  - unfold submitTestResult. run_cases; apply passages_same; reflexivity.
  - unfold run.
    destruct (AccessControl.hasPermission (accessControlState s) caller admin) eqn:E.
    + destruct (decide (size (passages s) = 0%nat)) as [Hs|Hs].
      * rewrite seedData_empty by assumption. eapply passages_seeded. reflexivity.
      * rewrite seedData_nonempty by assumption. apply passages_same; reflexivity.
    + rewrite seedData_unauthorized by assumption. apply passages_same; reflexivity.
  - unfold addAdmin. run_cases; apply passages_same; reflexivity.
  - unfold run. munfold. apply passages_same; reflexivity.
Qed.

Lemma insert_keyed (m : gmap (list N) Passage.t) (p : Passage.t) :
  (forall k q, m !! k = Some q -> Passage.id q = k) ->
  forall k q, <[Passage.id p := p]> m !! k = Some q -> Passage.id q = k.
Proof.
  intros Hm k q. destruct (decide (Passage.id p = k)) as [<-|Hne].
  - rewrite lookup_insert_eq. congruence.
  - rewrite lookup_insert_ne by assumption. apply Hm.
Qed.

Lemma exec_passages_keyed msg s :
  passages_keyed s -> passages_keyed (exec msg s).
Proof.
  unfold passages_keyed. intros Hs.
  destruct (exec_PassageEffect msg s)
    as [E|p E|id existing title content tm Hex E|id E|now E]; rewrite E; clear E.
  - exact Hs.
  - apply insert_keyed, Hs.
  - pose proof (Hs id existing Hex) as Hid. subst id.
    exact (insert_keyed _ (Passage.mk (Passage.id existing) title content tm) Hs).
  - intros k q Hq. apply lookup_delete_Some in Hq as [_ Hq]. eauto.
  - revert Hs. generalize (passages s). generalize passagesToAdd.
    intros l. induction l as [|e l IH]; intros m Hm; [exact Hm|].
    cbn [foldl]. apply IH. unfold seedInsert. apply insert_keyed, Hm.
Qed.

Lemma reachable_passages_keyed s : reachable s -> passages_keyed s.
Proof.
  induction 1 as [|s msg _ IH].
  - intros k p. cbn [initial passages]. rewrite lookup_empty. discriminate.
  - apply exec_passages_keyed, IH.
Qed.

Lemma StronglySorted_strict {A B} (R R' : relation A) (f : A -> B) (l : list A) :
  (forall x y, R x y -> f x <> f y -> R' x y) ->
  StronglySorted R l -> NoDup (f <$> l) -> StronglySorted R' l.
Proof.
  intros Hstrict Hs. induction Hs as [|x l _ IH Hx]; intros Hnd; [constructor|].
  rewrite fmap_cons in Hnd. apply NoDup_cons in Hnd as [Hnotin Hnd].
  constructor; [apply IH, Hnd|].
  rewrite Forall_forall in Hx. apply Forall_forall. intros y Hy.
  apply Hstrict; [apply Hx, Hy|].
  intros E. apply Hnotin. rewrite E. apply list_elem_of_fmap. eauto.
Qed.

(** X6. In every reachable state each passage is stored under its own id.
    Hence the list that [getPassages] returns has pairwise different ids
    and is strictly ascending by id. *)
Theorem getPassages_strictly_sorted (s : State) (caller : Principal) :
  reachable s ->
  AccessControl.hasPermission (accessControlState s) caller user = true ->
  passages_keyed s /\
  exists l,
    getPassages caller s = Ok l s /\
    NoDup (Passage.id <$> l) /\
    StronglySorted
      (fun p q => Text_compare (Passage.id p) (Passage.id q) = Lt) l.
Proof.
  intros Hs Hperm. pose proof (reachable_passages_keyed s Hs) as Hkeyed.
  split; [exact Hkeyed|]. eexists. split; [apply getPassages_eq, Hperm|].
  assert (Hnd : NoDup (Passage.id <$>
                  Array_sort Passage.compare (Map_values (passages s)))).
  { rewrite Array_sort_Permutation, Map_values_Permutation.
    assert (Hids : Passage.id <$> (map_to_list (passages s)).*2
                   = (map_to_list (passages s)).*1).
    { rewrite <- list_fmap_compose. apply list_fmap_ext.
      intros i [k p] Hin. apply list_elem_of_lookup_2, elem_of_map_to_list in Hin.
      cbn. apply Hkeyed, Hin. }
    rewrite Hids. apply NoDup_fst_map_to_list. }
  split; [exact Hnd|].
  apply (StronglySorted_strict Passage_le _ Passage.id); [| |exact Hnd].
  - intros p q Hle Hne. unfold Passage_le, Passage.compare in Hle.
    destruct (Text_compare (Passage.id p) (Passage.id q)) eqn:Ec; [|reflexivity|congruence].
    exfalso. apply Hne, Text_compare_Eq, Ec.
  - apply (Array_sort_sorted Passage.compare).
Qed.

Lemma s_seeded_reachable : reachable s_seeded.
Proof.
  apply (reachable_exec _ (mkMessage root 17 CallSeedData)).
  apply (reachable_exec initial (mkMessage root 0 (CallAssignRole root admin))).
  constructor.
Qed.

Lemma getPassages_strictly_sorted_witness :
  exists l,
    getPassages root s_seeded = Ok l s_seeded /\
    NoDup (Passage.id <$> l) /\
    StronglySorted
      (fun p q => Text_compare (Passage.id p) (Passage.id q) = Lt) l.
Proof.
  apply (getPassages_strictly_sorted s_seeded root s_seeded_reachable).
  vm_compute. reflexivity.
Defined.

Lemma updatePassage_unauthorized caller id title content tm s :
  AccessControl.hasPermission (accessControlState s) caller admin = false ->
  updatePassage caller id title content tm s
    = Trap "Unauthorized: Only admins can update passages".
Proof. intros E. unfold updatePassage. munfold. rewrite E. reflexivity. Qed.

Lemma deletePassage_unauthorized caller id s :
  AccessControl.hasPermission (accessControlState s) caller admin = false ->
  deletePassage caller id s = Trap "Unauthorized: Only admins can delete passages".
Proof. intros E. unfold deletePassage. munfold. rewrite E. reflexivity. Qed.

(** X7. [updatePassage] of a stored id by an administrator keeps the set of
    stored ids and the id of the passage, replaces title, content and
    minutes, and leaves every other passage alone; of two updates of the
    same id the later one wins. *)
Theorem updatePassage_keeps_ids (s : State) (caller : Principal)
    (id : Text) (existing : Passage.t) (t1 c1 t2 c2 : Text) (tm1 tm2 : N) :
  AccessControl.hasPermission (accessControlState s) caller admin = true ->
  passages s !! id = Some existing ->
  let s1 := run (updatePassage caller id t1 c1 tm1) s in
  dom (passages s1) = dom (passages s) /\
  size (passages s1) = size (passages s) /\
  passages s1 !! id = Some (Passage.mk (Passage.id existing) t1 c1 tm1) /\
  (forall k, k <> id -> passages s1 !! k = passages s !! k) /\
  run (updatePassage caller id t2 c2 tm2) s1
    = run (updatePassage caller id t2 c2 tm2) s.
Proof.
  intros Hadm Hex s1.
  assert (Hs1 : s1 = set_passages
                       <[id := Passage.mk (Passage.id existing) t1 c1 tm1]> s).
  { subst s1. unfold run. rewrite updatePassage_eq, Hex by assumption. reflexivity. }
  rewrite Hs1. acc_simpl. split; [|split; [|split; [|split]]].
  - apply dom_insert_lookup_L. eauto.
  - apply map_size_insert_Some. eauto.
  - apply lookup_insert_eq.
  - intros k Hk. apply lookup_insert_ne. congruence.
  - unfold run. rewrite !updatePassage_eq by assumption. acc_simpl.
    rewrite lookup_insert_eq, Hex. unfold set_passages. acc_simpl.
    cbn [Passage.id]. rewrite insert_insert_eq. reflexivity.
Qed.

Lemma updatePassage_keeps_ids_witness :
  size (passages (run (updatePassage root (hashPassword (text "Title17"))
                                     (text "New") (text "Text") 9) s_one_passage))
    = 1%nat /\
  passages (run (updatePassage root (hashPassword (text "Title17"))
                               (text "New") (text "Text") 9) s_one_passage)
    !! hashPassword (text "Title17")
    = Some (Passage.mk (hashPassword (text "Title17")) (text "New") (text "Text") 9).
Proof.
  destruct (updatePassage_keeps_ids s_one_passage root (hashPassword (text "Title17"))
              (Passage.mk (hashPassword (text "Title17")) (text "Title") (text "Body") 3)
              (text "New") (text "Text") (text "New") (text "Text") 9 9)
    as (_ & Hsize & Hlook & _);
    [vm_compute; reflexivity | vm_compute; reflexivity |].
  split; [rewrite Hsize; vm_compute; reflexivity|exact Hlook].
Defined.

(** X8. For an administrator, deleting a passage that was just added under
    a fresh id restores the state from before the addition, and deleting it
    once more traps because the id is no longer stored. *)
Theorem deletePassage_undoes_addPassage (s : State) (caller : Principal)
    (now : Z) (title content : Text) (tm : N) :
  AccessControl.hasPermission (accessControlState s) caller admin = true ->
  let id := hashPassword (title ++ Int_toText now) in
  passages s !! id = None ->
  let s1 := run (addPassage caller now title content tm) s in
  deletePassage caller id s1 = Ok ok_ s /\
  deletePassage caller id s = Trap "Passage does not exist".
Proof.
  intros Hadm id Hfresh s1.
  assert (Hs1 : s1 = set_passages <[id := Passage.mk id title content tm]> s).
  { subst s1. unfold run. rewrite addPassage_eq by assumption. reflexivity. }
  split.
  - rewrite Hs1, deletePassage_eq by assumption. acc_simpl.
    rewrite lookup_insert_eq. f_equal. destruct s. unfold set_passages. acc_simpl.
    f_equal. rewrite delete_insert_eq. apply delete_id. exact Hfresh.
  - rewrite deletePassage_eq, Hfresh by assumption. reflexivity.
Qed.

Lemma deletePassage_undoes_addPassage_witness :
  deletePassage root (hashPassword (text "Title17")) s_one_passage = Ok ok_ s_admin /\
  deletePassage root (hashPassword (text "Title17")) s_admin
    = Trap "Passage does not exist".
Proof.
  apply (deletePassage_undoes_addPassage s_admin root 17 (text "Title") (text "Body") 3);
    vm_compute; reflexivity.
Defined.

(** X9. Only an administrator changes the passage store: when a message
    leaves the store different from before, its method is one of
    [addPassage], [updatePassage], [deletePassage], [seedData] and its
    caller had the [admin] capability. In particular [submitTestResult],
    [registerUser], [login] and [logout] never touch the passages. *)
Theorem passages_change_needs_admin (msg : Message) (s : State) :
  passages (exec msg s) <> passages s ->
  writes_passages (msg_call msg) /\
  AccessControl.hasPermission (accessControlState s) (msg_caller msg) admin = true.
Proof.
  destruct msg as [caller now call]. unfold exec. cbn [msg_caller msg_now msg_call].
  intros Hch.
  destruct (AccessControl.hasPermission (accessControlState s) caller admin) eqn:Hadm.
  - split; [|reflexivity]. destruct call; cbn [writes_passages]; try exact I;
      exfalso; apply Hch.
    + unfold saveCallerUserProfile. run_cases; reflexivity.
    + destruct (mobileToUser s !! mobile) as [p|] eqn:E; unfold run.
      * rewrite registerUser_taken by eauto. reflexivity.
      * rewrite registerUser_fresh by assumption. reflexivity.
    + unfold login. run_cases; reflexivity.
    + unfold run. rewrite checkSessionValid_eq. reflexivity.
    + unfold logout. run_cases; reflexivity.
    + unfold submitTestResult. run_cases; reflexivity.
    + unfold addAdmin. run_cases; reflexivity.
    + unfold run. munfold. reflexivity.
  - exfalso. apply Hch. destruct call.
    + unfold saveCallerUserProfile. run_cases; reflexivity.
    + destruct (mobileToUser s !! mobile) as [p|] eqn:E; unfold run.
      * rewrite registerUser_taken by eauto. reflexivity.
      * rewrite registerUser_fresh by assumption. reflexivity.
    + unfold login. run_cases; reflexivity.
    + unfold run. rewrite checkSessionValid_eq. reflexivity.
    + unfold logout. run_cases; reflexivity.
    + unfold run. rewrite addPassage_unauthorized by assumption. reflexivity.
    + unfold run. rewrite updatePassage_unauthorized by assumption. reflexivity.
    + unfold run. rewrite deletePassage_unauthorized by assumption. reflexivity.
    + unfold submitTestResult. run_cases; reflexivity.
    + unfold run. rewrite seedData_unauthorized by assumption. reflexivity.
    + unfold addAdmin. run_cases; reflexivity.
    + unfold run. munfold. reflexivity.
Qed.

Lemma passages_change_needs_admin_witness :
  AccessControl.hasPermission (accessControlState s_admin) root admin = true.
Proof.
  apply (passages_change_needs_admin
           (mkMessage root 17 (CallAddPassage (text "Title") (text "Body") 3)) s_admin).
  vm_compute. discriminate.
Defined.

(** ** The result store *)

Lemma submitTestResult_unauthorized caller now un um pt w a mi s :
  AccessControl.hasPermission (accessControlState s) caller user = false ->
  submitTestResult caller now un um pt w a mi s
    = Trap "Unauthorized: Only users can submit test results".
Proof. intros E. unfold submitTestResult. munfold. rewrite E. reflexivity. Qed.

(** What a message does to the result store: nothing, or it is a
    [submitTestResult] of a caller with the [user] capability and stores
    one result under the id derived from its mobile and the clock reading. *)
Lemma exec_testResults msg s :
  testResults (exec msg s) = testResults s \/
  exists un um pt w a mi,
    msg_call msg = CallSubmitTestResult un um pt w a mi /\
    AccessControl.hasPermission (accessControlState s) (msg_caller msg) user = true /\
    testResults (exec msg s) =
      <[hashPassword (um ++ Int_toText (msg_now msg)) :=
          TestResult.mk (hashPassword (um ++ Int_toText (msg_now msg)))
                        un um pt w a mi (msg_now msg)]> (testResults s).
Proof.
  destruct msg as [caller now call]. unfold exec. cbn [msg_caller msg_now msg_call].
  destruct call.
  - left. unfold saveCallerUserProfile. run_cases; reflexivity.
  - left. destruct (mobileToUser s !! mobile) as [p|] eqn:E; unfold run.
    + rewrite registerUser_taken by eauto. reflexivity.
    + rewrite registerUser_fresh by assumption. reflexivity.
  - left. unfold login. run_cases; reflexivity.
  - left. unfold run. rewrite checkSessionValid_eq. reflexivity.
  - left. unfold logout. run_cases; reflexivity.
  - left. unfold addPassage. run_cases; reflexivity.
  - left. unfold updatePassage. run_cases; reflexivity.
  - left. unfold deletePassage. run_cases; reflexivity.
  - destruct (AccessControl.hasPermission (accessControlState s) caller user) eqn:E.
    + right. exists userName, userMobile, passageTitle, wpm, accuracy, mistakes.
      split; [reflexivity|]. split; [reflexivity|].
      unfold run. rewrite submitTestResult_eq by assumption. reflexivity.
    + left. unfold run. rewrite submitTestResult_unauthorized by assumption.
      reflexivity.
  - left. unfold run.
    destruct (AccessControl.hasPermission (accessControlState s) caller admin) eqn:E.
    + destruct (decide (size (passages s) = 0%nat)) as [Hs|Hs].
      * rewrite seedData_empty by assumption. reflexivity.
      * rewrite seedData_nonempty by assumption. reflexivity.
    + rewrite seedData_unauthorized by assumption. reflexivity.
  - left. unfold addAdmin. run_cases; reflexivity.
  - left. unfold run. munfold. reflexivity.
Qed.

Lemma exec_results_keyed msg s : results_keyed s -> results_keyed (exec msg s).
Proof.
  unfold results_keyed. intros Hs.
  destruct (exec_testResults msg s) as [E|(un & um & pt & w & a & mi & _ & _ & E)];
    rewrite E; [exact Hs|].
  intros k r.
  destruct (decide (hashPassword (um ++ Int_toText (msg_now msg)) = k)) as [<-|Hne].
  - rewrite lookup_insert_eq. intros [= <-]. split; reflexivity.
  - rewrite lookup_insert_ne by assumption. apply Hs.
Qed.

(** X10. In every reachable state each stored result sits under its own
    id, and that id is the one derived from the result's mobile and
    timestamp; so two stored results with the same mobile and timestamp are
    the same result. *)
Theorem results_ids_derived (s : State) :
  reachable s ->
  results_keyed s /\
  (forall k1 k2 r1 r2,
     testResults s !! k1 = Some r1 ->
     testResults s !! k2 = Some r2 ->
     TestResult.userMobile r1 = TestResult.userMobile r2 ->
     TestResult.timestamp r1 = TestResult.timestamp r2 ->
     k1 = k2 /\ r1 = r2).
Proof.
  intros Hs.
  assert (Hk : results_keyed s).
  { induction Hs as [|s msg _ IH].
    - intros k r. cbn [initial testResults]. rewrite lookup_empty. discriminate.
    - apply exec_results_keyed, IH. }
  split; [exact Hk|].
  intros k1 k2 r1 r2 H1 H2 Em Et.
  destruct (Hk k1 r1 H1) as [_ E1]. destruct (Hk k2 r2 H2) as [_ E2].
  assert (Ek : k1 = k2) by (rewrite E1, E2, Em, Et; reflexivity).
  split; [exact Ek|]. rewrite <- Ek in H2. congruence.
Qed.

Lemma s_submit_2_reachable : reachable s_submit_2.
Proof.
  apply (reachable_exec _ (mkMessage alice 5
           (CallSubmitTestResult (text "Alice") mobileA (text "P2") 55 95 1))).
  apply (reachable_exec _ (mkMessage alice 5
           (CallSubmitTestResult (text "Alice") mobileA (text "P1") 40 90 3))).
  apply (reachable_exec initial (mkMessage alice 0 (CallAssignRole alice user))).
  constructor.
Qed.

Lemma results_ids_derived_witness :
  testResults s_submit_2 !! hashPassword (mobileA ++ Int_toText 5) = Some result_second /\
  TestResult.id result_second = hashPassword (mobileA ++ Int_toText 5).
Proof.
  destruct (results_ids_derived s_submit_2 s_submit_2_reachable) as [Hk _].
  assert (H : testResults s_submit_2 !! hashPassword (mobileA ++ Int_toText 5)
              = Some result_second) by (vm_compute; reflexivity).
  split; [exact H|]. apply (Hk _ _ H).
Defined.

(** X11. The result store only grows or overwrites: a message either
    leaves it as it is or is a [submitTestResult] of a caller with the
    [user] capability that writes one entry; no message removes a stored
    id, and no other method writes a result. *)
Theorem results_never_removed (msg : Message) (s : State) (k : Text)
    (r : TestResult.t) :
  testResults s !! k = Some r ->
  is_Some (testResults (exec msg s) !! k) /\
  (testResults (exec msg s) !! k <> Some r ->
     AccessControl.hasPermission (accessControlState s) (msg_caller msg) user = true /\
     exists un um pt w a mi,
       msg_call msg = CallSubmitTestResult un um pt w a mi /\
       k = hashPassword (um ++ Int_toText (msg_now msg))).
Proof.
  intros Hk.
  destruct (exec_testResults msg s) as [E|(un & um & pt & w & a & mi & Hc & Hp & E)];
    rewrite E.
  - split; [eauto|]. intros Hne. contradiction.
  - destruct (decide (hashPassword (um ++ Int_toText (msg_now msg)) = k)) as [Ek|Hne].
    + split; [rewrite <- Ek, lookup_insert_eq; eauto|].
      intros _. split; [exact Hp|]. exists un, um, pt, w, a, mi. auto.
    + rewrite lookup_insert_ne by assumption. split; [eauto|].
      intros Hch. contradiction.
Qed.

Lemma results_never_removed_witness :
  is_Some (testResults
             (exec (mkMessage alice 5
                      (CallSubmitTestResult (text "Alice") mobileA (text "P2") 55 95 1))
                   s_submit_1)
           !! hashPassword (mobileA ++ Int_toText 5)).
Proof.
  apply (results_never_removed _ s_submit_1 _ result_first).
  vm_compute. reflexivity.
Defined.

(** ** Accounts and sessions *)

Lemma logout_unknown caller m s :
  mobileToUser s !! m = None -> logout caller m s = Trap "User does not exist".
Proof. intros E. unfold logout. munfold. rewrite E. reflexivity. Qed.

Lemma logout_unauthorized caller m p s :
  mobileToUser s !! m = Some p ->
  caller <> p ->
  AccessControl.isAdmin (accessControlState s) caller = false ->
  logout caller m s = Trap "Unauthorized: Can only logout yourself".
Proof.
  intros E Hne Hadm. unfold logout. munfold. rewrite E, Hadm.
  rewrite bool_decide_eq_false_2 by assumption. reflexivity.
Qed.

(** X12. [logout] traps for a mobile that is not indexed, and traps for a
    caller who is neither the owner of the account nor an administrator; a
    trap changes nothing. For the owner or an administrator it empties the
    session field of the account's profile and changes nothing else (name,
    mobile and password hash stay, every other profile and store is
    untouched); afterwards no non-empty token is accepted for the mobile. *)
Theorem logout_contract (s : State) (caller : Principal) (m : Text) :
  (mobileToUser s !! m = None ->
     logout caller m s = Trap "User does not exist") /\
  (forall p,
     mobileToUser s !! m = Some p -> caller <> p ->
     AccessControl.isAdmin (accessControlState s) caller = false ->
     logout caller m s = Trap "Unauthorized: Can only logout yourself" /\
     run (logout caller m) s = s) /\
  (forall p profile,
     mobileToUser s !! m = Some p ->
     userProfiles s !! p = Some profile ->
     caller = p \/ AccessControl.isAdmin (accessControlState s) caller = true ->
     exists s',
       logout caller m s = Ok tt s' /\
       userProfiles s' !! p =
         Some (UserProfile.mk (UserProfile.name profile) (UserProfile.mobile profile)
                              (UserProfile.passwordHash profile) []) /\
       (forall q, q <> p -> userProfiles s' !! q = userProfiles s !! q) /\
       mobileToUser s' = mobileToUser s /\ passages s' = passages s /\
       testResults s' = testResults s /\
       accessControlState s' = accessControlState s /\
       forall token, token <> [] -> checkSessionValid m token s' = Ok false s').
Proof.
  split; [apply logout_unknown|]. split.
  - intros p Ei Hne Hadm. unfold run.
    rewrite (logout_unauthorized caller m p s) by assumption. auto.
  - intros p profile Ei Ep Hwho. eexists.
    split; [apply (logout_ok caller s m p profile); assumption|]. acc_simpl.
    split; [apply lookup_insert_eq|].
    split; [intros q Hq; apply lookup_insert_ne; congruence|].
    repeat split.
    intros token Hne. rewrite checkSessionValid_stored. f_equal.
    apply bool_decide_eq_false. unfold storedSession. acc_simpl. rewrite Ei. cbn.
    rewrite lookup_insert_eq. cbn. congruence.
Qed.

Lemma logout_contract_witness :
  logout bob mobileA s_login_5 = Trap "Unauthorized: Can only logout yourself" /\
  exists s',
    logout alice mobileA s_login_5 = Ok tt s' /\
    checkSessionValid mobileA token5 s' = Ok false s'.
Proof.
  destruct (logout_contract s_login_5 bob mobileA) as (_ & Hno & _).
  destruct (logout_contract s_login_5 alice mobileA) as (_ & _ & Hyes).
  split.
  - apply (Hno alice); [vm_compute; reflexivity|discriminate|vm_compute; reflexivity].
  - destruct (Hyes alice (UserProfile.mk (text "Alice") mobileA (hashPassword pw1) token5))
      as (s' & E & _ & _ & _ & _ & _ & _ & Hcheck);
      [vm_compute; reflexivity|vm_compute; reflexivity|left; reflexivity|].
    exists s'. split; [exact E|]. apply Hcheck. vm_compute. discriminate.
Defined.

(** X13. A full session cycle. When [login] succeeds, the returned token is
    accepted right away; a logout by the owner (or an administrator) then
    succeeds and the token is rejected; and the credentials survive: a
    later login with the same password, at any clock reading, succeeds
    again. *)
Theorem login_logout_cycle (s : State) (now now2 : Z) (m pw : Text)
    (r : LoginOk) (s1 : State) (caller : Principal) :
  login now m pw s = Ok r s1 ->
  (forall p, mobileToUser s !! m = Some p ->
             caller = p \/ AccessControl.isAdmin (accessControlState s) caller = true) ->
  checkSessionValid m (login_sessionId r) s1 = Ok true s1 /\
  exists s2,
    logout caller m s1 = Ok tt s2 /\
    checkSessionValid m (login_sessionId r) s2 = Ok false s2 /\
    exists r2 s3,
      login now2 m pw s2 = Ok r2 s3 /\
      login_name r2 = login_name r /\ login_mobile r2 = login_mobile r.
Proof.
  intros Hlogin Hwho. revert Hlogin. unfold login at 1. munfold.
  destruct (mobileToUser s !! m) as [p|] eqn:Ei; [|discriminate].
  destruct (userProfiles s !! p) as [profile|] eqn:Ep; [|discriminate].
  destruct (negb _) eqn:Eh; [discriminate|].
  apply negb_false_iff, Text_eqb_true in Eh.
  intros [= <- <-]. cbn [login_sessionId login_name login_mobile].
  set (sid := hashPassword (UserProfile.mobile profile ++ Int_toText now)).
  set (s1 := set_userProfiles <[p := UserProfile.with_sessionId profile sid]> s).
  assert (Hi1 : mobileToUser s1 !! m = Some p) by exact Ei.
  assert (Hp1 : userProfiles s1 !! p = Some (UserProfile.with_sessionId profile sid))
    by apply lookup_insert_eq.
  split.
  { rewrite checkSessionValid_eq, Hi1, Hp1. f_equal. apply Text_eqb_true. reflexivity. }
  pose proof (logout_ok caller s1 m p _ Hi1 Hp1 (Hwho p eq_refl)) as Hout.
  set (s2 := set_userProfiles
               <[p := UserProfile.with_sessionId
                        (UserProfile.with_sessionId profile sid) []]> s1) in *.
  exists s2. split; [exact Hout|].
  assert (Hi2 : mobileToUser s2 !! m = Some p) by exact Ei.
  assert (Hp2 : userProfiles s2 !! p
                = Some (UserProfile.with_sessionId
                          (UserProfile.with_sessionId profile sid) []))
    by apply lookup_insert_eq.
  split.
  { rewrite checkSessionValid_eq, Hi2, Hp2. f_equal. apply Text_eqb_false.
    cbn. intros E. symmetry in E. revert E. apply derived_nonempty. }
  pose proof (login_ok now2 s2 m pw p _ Hi2 Hp2 Eh) as Hl2. cbv zeta in Hl2.
  eexists _, _. split; [exact Hl2|]. split; reflexivity.
Qed.

Lemma login_logout_cycle_witness :
  checkSessionValid mobileA token5 s_login_5 = Ok true s_login_5 /\
  exists s2,
    logout alice mobileA s_login_5 = Ok tt s2 /\
    checkSessionValid mobileA token5 s2 = Ok false s2 /\
    exists r2 s3, login 9 mobileA pw1 s2 = Ok r2 s3 /\
                  login_name r2 = text "Alice" /\ login_mobile r2 = mobileA.
Proof.
  apply (login_logout_cycle s_registered 5 9 mobileA pw1
           (mkLoginOk (text "Alice") mobileA token5) s_login_5 alice).
  - vm_compute. reflexivity.
  - intros p Hp. left. vm_compute in Hp. injection Hp as <-. reflexivity.
Defined.

Lemma saveCallerUserProfile_eq caller profile s :
  AccessControl.hasPermission (accessControlState s) caller user = true ->
  saveCallerUserProfile caller profile s
    = Ok tt (set_userProfiles <[caller := profile]> s).
Proof. intros E. unfold saveCallerUserProfile. munfold. rewrite E. reflexivity. Qed.

Lemma getCallerUserProfile_eq caller s :
  AccessControl.hasPermission (accessControlState s) caller user = true ->
  getCallerUserProfile caller s = Ok (userProfiles s !! caller) s.
Proof. intros E. unfold getCallerUserProfile. munfold. rewrite E. reflexivity. Qed.

(** X14. For a caller with the [user] capability, [saveCallerUserProfile]
    followed by [getCallerUserProfile] returns the saved profile; the save
    replaces the caller's profile only and does not touch the mobile index,
    so a mobile that was not indexed before cannot be used to log in
    afterwards, even when the saved profile carries it. Without the
    capability both methods trap. *)
Theorem saveCallerUserProfile_roundtrip (s : State) (caller : Principal)
    (profile : UserProfile.t) :
  (AccessControl.hasPermission (accessControlState s) caller user = true ->
     exists s',
       saveCallerUserProfile caller profile s = Ok tt s' /\
       getCallerUserProfile caller s' = Ok (Some profile) s' /\
       (forall q, q <> caller -> userProfiles s' !! q = userProfiles s !! q) /\
       mobileToUser s' = mobileToUser s /\
       (mobileToUser s !! UserProfile.mobile profile = None ->
        forall now pw,
          login now (UserProfile.mobile profile) pw s' = Trap "User does not exist")) /\
  (AccessControl.hasPermission (accessControlState s) caller user = false ->
     saveCallerUserProfile caller profile s
       = Trap "Unauthorized: Only users can save profiles" /\
     getCallerUserProfile caller s
       = Trap "Unauthorized: Only users can view profiles").
Proof.
  split.
  - intros E. eexists. split; [apply saveCallerUserProfile_eq, E|].
    split.
    { rewrite getCallerUserProfile_eq by exact E. acc_simpl.
      rewrite lookup_insert_eq. reflexivity. }
    acc_simpl. split; [intros q Hq; apply lookup_insert_ne; congruence|].
    split; [reflexivity|].
    intros Hnone now pw. apply login_unknown. exact Hnone.
  - intros E. split.
    + unfold saveCallerUserProfile. munfold. rewrite E. reflexivity.
    + unfold getCallerUserProfile. munfold. rewrite E. reflexivity.
Qed.

Lemma saveCallerUserProfile_roundtrip_witness :
  (exists s',
     saveCallerUserProfile alice
       (UserProfile.mk (text "Al") mobileB (hashPassword pw1) []) s_registered
       = Ok tt s' /\
     getCallerUserProfile alice s'
       = Ok (Some (UserProfile.mk (text "Al") mobileB (hashPassword pw1) [])) s' /\
     login 5 mobileB pw1 s' = Trap "User does not exist") /\
  saveCallerUserProfile bob
    (UserProfile.mk (text "Al") mobileB (hashPassword pw1) []) s_registered
    = Trap "Unauthorized: Only users can save profiles".
Proof.
  split.
  - destruct (proj1 (saveCallerUserProfile_roundtrip s_registered alice
                       (UserProfile.mk (text "Al") mobileB (hashPassword pw1) [])))
      as (s' & E & Hget & _ & _ & Hlogin); [vm_compute; reflexivity|].
    exists s'. split; [exact E|]. split; [exact Hget|].
    apply Hlogin. vm_compute. reflexivity.
  - apply (saveCallerUserProfile_roundtrip s_registered bob). vm_compute. reflexivity.
Defined.

Lemma addAdmin_unauthorized caller s :
  AccessControl.hasPermission (accessControlState s) caller admin = false ->
  addAdmin caller s = Trap "Unauthorized: Only admins can add other admins".
Proof. intros E. unfold addAdmin. munfold. rewrite E. reflexivity. Qed.

Lemma addAdmin_present caller s :
  AccessControl.hasPermission (accessControlState s) caller admin = true ->
  is_Some (mobileToUser s !! adminMobile) ->
  addAdmin caller s = Ok tt s.
Proof.
  intros E Hi. apply containsKey_true in Hi.
  unfold addAdmin. munfold. rewrite E. cbn [negb]. rewrite Hi. reflexivity.
Qed.

Lemma addAdmin_fresh caller s :
  AccessControl.hasPermission (accessControlState s) caller admin = true ->
  mobileToUser s !! adminMobile = None ->
  addAdmin caller s =
    Ok tt {| userProfiles :=
               <[caller := UserProfile.mk (text "admin") adminMobile
                             (hashPassword (text "admin123")) []]> (userProfiles s);
             mobileToUser := <[adminMobile := caller]> (mobileToUser s);
             passages := passages s;
             testResults := testResults s;
             accessControlState := <[caller := admin]> (accessControlState s) |}.
Proof.
  intros E Hi. apply containsKey_false in Hi.
  unfold addAdmin. munfold. rewrite E. cbn [negb]. rewrite Hi. reflexivity.
Qed.

(** X15. [addAdmin] traps for a caller without the [admin] capability and
    does nothing when the well-known mobile is already indexed. Otherwise it
    binds that mobile to the calling administrator: the caller's profile is
    replaced by the admin profile (whatever it was before), the mobile is
    indexed to the caller, the caller is still an administrator, and a login
    with that mobile and the password ["admin123"] succeeds. A second
    [addAdmin], by any caller, changes nothing. *)
Theorem addAdmin_contract (s : State) (caller caller2 : Principal) (now : Z) :
  (AccessControl.hasPermission (accessControlState s) caller admin = false ->
     addAdmin caller s = Trap "Unauthorized: Only admins can add other admins") /\
  (AccessControl.hasPermission (accessControlState s) caller admin = true ->
   is_Some (mobileToUser s !! adminMobile) ->
     addAdmin caller s = Ok tt s) /\
  (AccessControl.hasPermission (accessControlState s) caller admin = true ->
   mobileToUser s !! adminMobile = None ->
     exists s',
       addAdmin caller s = Ok tt s' /\
       userProfiles s' !! caller =
         Some (UserProfile.mk (text "admin") adminMobile
                              (hashPassword (text "admin123")) []) /\
       mobileToUser s' !! adminMobile = Some caller /\
       AccessControl.hasPermission (accessControlState s') caller admin = true /\
       passages s' = passages s /\ testResults s' = testResults s /\
       (exists s'',
          login now adminMobile (text "admin123") s' =
            Ok (mkLoginOk (text "admin") adminMobile
                          (hashPassword (adminMobile ++ Int_toText now))) s'') /\
       run (addAdmin caller2) s' = s').
Proof.
  split; [apply addAdmin_unauthorized|]. split; [apply addAdmin_present|].
  intros E Hi. eexists. split; [apply addAdmin_fresh; assumption|]. acc_simpl.
  split; [apply lookup_insert_eq|]. split; [apply lookup_insert_eq|].
  split.
  { cbn [AccessControl.hasPermission]. unfold AccessControl.isAdmin,
      AccessControl.getUserRole. rewrite lookup_insert_eq. reflexivity. }
  split; [reflexivity|]. split; [reflexivity|]. split.
  - eexists. eapply (login_ok now _ adminMobile (text "admin123") caller
                       (UserProfile.mk (text "admin") adminMobile
                          (hashPassword (text "admin123")) [])).
    + acc_simpl. apply lookup_insert_eq.
    + acc_simpl. apply lookup_insert_eq.
    + reflexivity.
  - unfold run. match goal with |- match addAdmin _ ?st with _ => _ end = _ =>
      destruct (AccessControl.hasPermission (accessControlState st) caller2 admin) eqn:E2;
      [rewrite (addAdmin_present caller2 st E2)
      |rewrite (addAdmin_unauthorized caller2 st E2)] end; try reflexivity.
    acc_simpl. rewrite lookup_insert_eq. eauto.
Qed.

Lemma addAdmin_contract_witness :
  addAdmin alice s_admin = Trap "Unauthorized: Only admins can add other admins" /\
  exists s',
    addAdmin root s_admin = Ok tt s' /\
    mobileToUser s' !! adminMobile = Some root /\
    run (addAdmin root) s' = s'.
Proof.
  destruct (addAdmin_contract s_admin alice root 5) as (Hno & _ & _).
  destruct (addAdmin_contract s_admin root root 5) as (_ & _ & Hyes).
  split; [apply Hno; vm_compute; reflexivity|].
  destruct Hyes as (s' & E & _ & Hi & _ & _ & _ & _ & Hidem);
    [vm_compute; reflexivity|vm_compute; reflexivity|].
  exists s'. auto.
Defined.

(** X16. Accounts are never deleted: a profile that exists and a mobile
    that is indexed are still there after every sequence of messages, and
    in every reachable state each indexed identity has a profile. *)
Theorem accounts_never_deleted (s : State) (msgs : list Message) :
  (forall p, is_Some (userProfiles s !! p) ->
             is_Some (userProfiles (execs msgs s) !! p)) /\
  (forall m p, mobileToUser s !! m = Some p ->
               mobileToUser (execs msgs s) !! m = Some p) /\
  (reachable s ->
   forall m p, mobileToUser (execs msgs s) !! m = Some p ->
               is_Some (userProfiles (execs msgs s) !! p)).
Proof.
  split; [|split].
  - revert s. induction msgs as [|msg msgs IH]; intros s p Hp; [exact Hp|].
    cbn [execs foldl]. apply IH, exec_profile_kept, Hp.
  - intros m p. apply execs_index_stable.
  - intros Hs. apply reachable_indexed_have_profile, reachable_execs, Hs.
Qed.

Lemma accounts_never_deleted_witness :
  is_Some (userProfiles
             (execs [mkMessage alice 7 (CallLogout mobileA);
                     mkMessage alice 8 (CallRegisterUser (text "A2") mobileB pw1)]
                    s_registered) !! alice) /\
  mobileToUser
    (execs [mkMessage alice 7 (CallLogout mobileA);
            mkMessage alice 8 (CallRegisterUser (text "A2") mobileB pw1)]
           s_registered) !! mobileA = Some alice.
Proof.
  destruct (accounts_never_deleted s_registered
              [mkMessage alice 7 (CallLogout mobileA);
               mkMessage alice 8 (CallRegisterUser (text "A2") mobileB pw1)])
    as (Hp & Hi & _).
  split.
  - apply Hp. vm_compute. eauto.
  - apply Hi. vm_compute. reflexivity.
Defined.

(** ** The frontend callers *)

Lemma foldl_count_acc {A} (b : A -> bool) (l : list A) (a : nat) :
  foldl (fun m i => if b i then m else S m) a l
  = (a + foldl (fun m i => if b i then m else S m) 0 l)%nat.
Proof.
  revert a. induction l as [|x l IH]; intros a; cbn [foldl]; [lia|].
  rewrite IH, (IH (if b x then 0 else 1)%nat). destruct (b x); lia.
Qed.

Lemma foldl_pointwise {A B} (f g : A -> B -> A) (l : list B) (a : A) :
  (forall m i, f m i = g m i) -> foldl f a l = foldl g a l.
Proof.
  intros Hfg. revert a. induction l as [|x l IH]; intros a; [reflexivity|].
  cbn [foldl]. rewrite Hfg. apply IH.
Qed.

Lemma countMistakes_cons x t p :
  Frontend.countMistakes (x :: t) p
  = ((if bool_decide (head p = Some x) then 0 else 1)
     + Frontend.countMistakes t (tail p))%nat.
Proof.
  unfold Frontend.countMistakes. cbn [length seq foldl].
  rewrite <- fmap_S_seq, foldl_fmap.
  rewrite (foldl_count_acc
             (fun i => bool_decide ((x :: t) !! S i = p !! S i))).
  assert (Hhead : (if bool_decide ((x :: t) !! 0%nat = p !! 0%nat) then 0 else 1)%nat
                  = (if bool_decide (head p = Some x) then 0 else 1)%nat).
  { rewrite head_lookup. cbn [lookup list_lookup].
    destruct (p !! 0%nat) as [y|] eqn:E.
    - destruct (decide (y = x)) as [->|Hne].
      + rewrite !bool_decide_eq_true_2 by reflexivity. reflexivity.
      + rewrite !bool_decide_eq_false_2 by congruence. reflexivity.
    - rewrite !bool_decide_eq_false_2 by congruence. reflexivity. }
  rewrite Hhead. f_equal. apply foldl_pointwise. intros m i.
  cbn [lookup list_lookup]. rewrite <- lookup_tail. reflexivity.
Qed.

Lemma countMistakes_le t p : (Frontend.countMistakes t p <= length t)%nat.
Proof.
  revert p. induction t as [|x t IH]; intros p; [reflexivity|].
  rewrite countMistakes_cons. cbn [length]. specialize (IH (tail p)).
  destruct (bool_decide _); lia.
Qed.

Lemma countMistakes_ge t p :
  (length t - length p <= Frontend.countMistakes t p)%nat.
Proof.
  revert p. induction t as [|x t IH]; intros p; [reflexivity|].
  rewrite countMistakes_cons. specialize (IH (tail p)).
  destruct p as [|y p]; cbn [length tail head] in *.
  - rewrite bool_decide_eq_false_2 by discriminate. lia.
  - destruct (bool_decide _); lia.
Qed.

Lemma countMistakes_zero t p :
  Frontend.countMistakes t p = 0%nat <-> t `prefix_of` p.
Proof.
  revert p. induction t as [|x t IH]; intros p.
  - split; [intros _; apply prefix_nil|reflexivity].
  - rewrite countMistakes_cons. destruct p as [|y p]; cbn [head tail].
    + rewrite bool_decide_eq_false_2 by discriminate. split; [discriminate|].
      intros [k Hk]. discriminate Hk.
    + destruct (decide (y = x)) as [->|Hne].
      * rewrite bool_decide_eq_true_2 by reflexivity. cbn [Nat.add]. rewrite IH.
        split; [apply prefix_cons|apply prefix_cons_inv_2].
      * rewrite bool_decide_eq_false_2 by congruence. split; [discriminate|].
        intros Hp. apply prefix_cons_inv_1 in Hp. congruence.
Qed.

(** X17. The mistakes that [doSubmit] counts for a typed text are at most
    the number of typed words and at least the number of typed words beyond
    the end of the passage; they are zero exactly when the typed words are
    a prefix of the words of the passage, whatever the white space between
    them, and in particular when the passage itself is typed. *)
Theorem mistakesOf_bounds (text content : list N) :
  (Frontend.mistakesOf text content <= length (Frontend.typedWordsOf text))%nat /\
  (length (Frontend.typedWordsOf text) - length (Frontend.passageWordsOf content)
     <= Frontend.mistakesOf text content)%nat /\
  (Frontend.mistakesOf text content = 0%nat <->
     Frontend.typedWordsOf text `prefix_of` Frontend.passageWordsOf content) /\
  Frontend.mistakesOf content content = 0%nat.
Proof.
  unfold Frontend.mistakesOf. split; [apply countMistakes_le|].
  split; [apply countMistakes_ge|]. split; [apply countMistakes_zero|].
  apply countMistakes_zero.
  unfold Frontend.typedWordsOf, Frontend.passageWordsOf.
  destruct (Frontend.trim content); [apply prefix_nil|reflexivity].
Qed.

Lemma mistakesOf_bounds_witness :
  Frontend.mistakesOf (text " the   quick ") (text "the quick brown fox") = 0%nat.
Proof.
  destruct (mistakesOf_bounds (text " the   quick ") (text "the quick brown fox"))
    as (_ & _ & Hzero & _).
  apply Hzero.
  exists [text "brown"; text "fox"]. vm_compute. reflexivity.
Defined.

Lemma analyzeList_cons w P T :
  Frontend.analyzeList (w :: P) T
  = Frontend.mkWordResult w (bool_decide (head T = Some w)) (default [] (head T))
      :: Frontend.analyzeList P (tail T).
Proof.
  unfold Frontend.analyzeList. rewrite imap_cons. rewrite head_lookup. f_equal.
  apply imap_ext. intros i x _. cbn. rewrite <- lookup_tail. reflexivity.
Qed.

Lemma analyzeList_untyped P :
  List.filter Frontend.correct (Frontend.analyzeList P []) = [].
Proof.
  induction P as [|w P IH]; [reflexivity|].
  rewrite analyzeList_cons. cbn [head tail List.filter Frontend.correct].
  rewrite bool_decide_eq_false_2 by discriminate. exact IH.
Qed.

Lemma analyzeList_correct_count P T :
  (length (List.filter Frontend.correct (Frontend.analyzeList P T))
   + Frontend.countMistakes T P = length T)%nat.
Proof.
  revert P. induction T as [|x T IH]; intros P.
  - rewrite analyzeList_untyped. reflexivity.
  - rewrite countMistakes_cons. destruct P as [|w P].
    + cbn [head tail]. rewrite bool_decide_eq_false_2 by discriminate.
      specialize (IH []). cbn [length] in *.
      change (Frontend.analyzeList [] (x :: T)) with (@nil Frontend.WordResult).
      change (Frontend.analyzeList [] T) with (@nil Frontend.WordResult) in IH.
      cbn [List.filter length] in *. lia.
    + rewrite analyzeList_cons. cbn [head tail List.filter Frontend.correct].
      specialize (IH P). destruct (decide (w = x)) as [->|Hne].
      * rewrite !bool_decide_eq_true_2 by reflexivity. cbn [length]. lia.
      * rewrite !bool_decide_eq_false_2 by congruence. cbn [length]. lia.
Qed.

(** X18. [analyzeWords] shows one entry per word of the passage, in the
    order of the passage, and agrees with the count of [doSubmit]: the
    number of entries marked correct plus the submitted mistakes is the
    number of typed words. *)
Theorem analyzeWords_consistent (content typedText : list N) :
  Frontend.word <$> Frontend.analyzeWords content typedText
    = Frontend.passageWordsOf content /\
  length (Frontend.analyzeWords content typedText)
    = length (Frontend.passageWordsOf content) /\
  (length (List.filter Frontend.correct (Frontend.analyzeWords content typedText))
   + Frontend.mistakesOf typedText content
   = length (Frontend.typedWordsOf typedText))%nat.
Proof.
  unfold Frontend.analyzeWords, Frontend.mistakesOf.
  generalize (Frontend.passageWordsOf content) (Frontend.typedWordsOf typedText).
  intros P T. split; [|split].
  - revert T. induction P as [|w P IH]; intros T; [reflexivity|].
    rewrite analyzeList_cons, fmap_cons. cbn [Frontend.word]. f_equal. apply IH.
  - unfold Frontend.analyzeList. apply length_imap.
  - apply analyzeList_correct_count.
Qed.

Lemma dropWhiteSpace_head s :
  match Frontend.dropWhiteSpace s with
  | c :: _ => Frontend.isWhiteSpace c = false
  | [] => True
  end.
Proof.
  induction s as [|c s IH]; [exact I|]. cbn [Frontend.dropWhiteSpace].
  destruct (Frontend.isWhiteSpace c) eqn:E; [exact IH|exact E].
Qed.

Lemma dropWhiteSpace_suffix s : Frontend.dropWhiteSpace s `suffix_of` s.
Proof.
  induction s as [|c s IH]; [reflexivity|]. cbn [Frontend.dropWhiteSpace].
  destruct (Frontend.isWhiteSpace c); [|reflexivity].
  apply suffix_cons_r, IH.
Qed.

Lemma dropWhiteSpace_blank s :
  Forall (fun c => Frontend.isWhiteSpace c = true) s -> Frontend.dropWhiteSpace s = [].
Proof.
  induction 1 as [|c s Hc _ IH]; [reflexivity|].
  cbn [Frontend.dropWhiteSpace]. rewrite Hc. exact IH.
Qed.

(** A trimmed string that is not empty starts and ends with a code unit
    that is not white space. *)
Lemma trim_ends s :
  Frontend.trim s <> [] ->
  (exists c r, Frontend.trim s = c :: r /\ Frontend.isWhiteSpace c = false) /\
  (exists r c, Frontend.trim s = r ++ [c] /\ Frontend.isWhiteSpace c = false).
Proof.
  unfold Frontend.trim. intros Hne.
  set (u := Frontend.dropWhiteSpace s) in *.
  pose proof (dropWhiteSpace_head (reverse u)) as Hv.
  pose proof (dropWhiteSpace_suffix (reverse u)) as [k Hk].
  destruct (Frontend.dropWhiteSpace (reverse u)) as [|c v] eqn:Ev;
    [exfalso; apply Hne; reflexivity|].
  split.
  - apply (f_equal reverse) in Hk. rewrite reverse_involutive, reverse_app in Hk.
    pose proof (dropWhiteSpace_head s) as Hu. fold u in Hu.
    destruct (reverse (c :: v)) as [|d w] eqn:Ew; [exfalso; apply Hne; reflexivity|].
    exists d, w. split; [reflexivity|].
    rewrite Hk in Hu. exact Hu.
  - exists (reverse v), c. split; [apply reverse_cons|exact Hv].
Qed.

Lemma split_aux_clean s cur skipping :
  Forall (fun c => Frontend.isWhiteSpace c = false) cur ->
  (s = [] /\ cur <> []) \/
    (exists r c, s = r ++ [c] /\ Frontend.isWhiteSpace c = false) ->
  (skipping = false -> cur = [] ->
     exists c r, s = c :: r /\ Frontend.isWhiteSpace c = false) ->
  (skipping = true -> cur = []) ->
  Forall clean_word (Frontend.split_aux cur skipping s).
Proof.
  revert cur skipping. induction s as [|c s IH]; intros cur skipping Hcur Hend Hstart Hskip.
  - destruct Hend as [[_ Hne]|(r & d & E & _)]; [|destruct r; discriminate].
    cbn [Frontend.split_aux]. constructor; [|constructor]. split.
    + intros E. apply Hne. apply (f_equal reverse) in E.
      rewrite reverse_involutive in E. exact E.
    + apply Forall_reverse, Hcur.
  - assert (Hlast : exists r d, c :: s = r ++ [d] /\ Frontend.isWhiteSpace d = false).
    { destruct Hend as [[E _]|H]; [discriminate|exact H]. }
    cbn [Frontend.split_aux]. destruct (Frontend.isWhiteSpace c) eqn:Ec.
    + assert (Hs : exists r d, s = r ++ [d] /\ Frontend.isWhiteSpace d = false).
      { destruct Hlast as (r & d & E & Hd). destruct r as [|x r].
        - injection E as -> _. congruence.
        - injection E as _ ->. eauto. }
      destruct skipping.
      * apply IH; auto. discriminate.
      * assert (Hne : cur <> []).
        { intros ->. destruct (Hstart eq_refl eq_refl) as (x & r & [= <- _] & Hx).
          congruence. }
        constructor.
        -- split; [|apply Forall_reverse, Hcur].
           intros E. apply Hne. apply (f_equal reverse) in E.
           rewrite reverse_involutive in E. exact E.
        -- apply IH; auto. discriminate.
    + apply IH.
      * constructor; assumption.
      * destruct Hlast as (r & d & E & Hd). destruct r as [|x r].
        -- injection E as _ ->. left. split; [reflexivity|discriminate].
        -- injection E as _ ->. right. eauto.
      * discriminate.
      * discriminate.
Qed.

Lemma split_trim_clean s :
  Frontend.trim s <> [] -> Forall clean_word (Frontend.split (Frontend.trim s)).
Proof.
  intros Hne. destruct (trim_ends s Hne) as [Hh Hl].
  unfold Frontend.split. apply split_aux_clean.
  - constructor.
  - right. exact Hl.
  - intros _ _. exact Hh.
  - discriminate.
Qed.

(** X19. Every word that [doSubmit] and [analyzeWords] compare for the
    typed text is non-empty and free of white space, so leading, trailing
    or repeated white space never produces an empty word; a blank typed
    text gives no words at all. The words of a passage are of the same
    kind, except that a blank passage gives the single empty word. *)
Theorem typed_words_clean (text content : list N) :
  Forall clean_word (Frontend.typedWordsOf text) /\
  (Forall (fun c => Frontend.isWhiteSpace c = true) text ->
     Frontend.typedWordsOf text = []) /\
  (Frontend.trim content <> [] ->
     Forall clean_word (Frontend.passageWordsOf content)) /\
  (Forall (fun c => Frontend.isWhiteSpace c = true) content ->
     Frontend.passageWordsOf content = [[]]).
Proof.
  assert (Hblank : forall s, Forall (fun c => Frontend.isWhiteSpace c = true) s ->
                             Frontend.trim s = []).
  { intros s Hs. unfold Frontend.trim. rewrite (dropWhiteSpace_blank s Hs).
    reflexivity. }
  split; [|split; [|split]].
  - unfold Frontend.typedWordsOf.
    destruct (Frontend.trim text) as [|c r] eqn:E; [constructor|].
    rewrite <- E. apply split_trim_clean. rewrite E. discriminate.
  - intros Hs. unfold Frontend.typedWordsOf. rewrite (Hblank text Hs). reflexivity.
  - apply split_trim_clean.
  - intros Hs. unfold Frontend.passageWordsOf. rewrite (Hblank content Hs).
    reflexivity.
Qed.

Lemma typed_words_clean_witness :
  Frontend.typedWordsOf (text "   ") = [] /\
  Frontend.passageWordsOf (text "   ") = [[]] /\
  Forall clean_word (Frontend.passageWordsOf (text "  the  quick fox ")).
Proof.
  destruct (typed_words_clean (text "   ") (text "   ")) as (_ & Ht & _ & Hp).
  destruct (typed_words_clean (text "   ") (text "  the  quick fox ")) as (_ & _ & Hc & _).
  split; [apply Ht; vm_compute; repeat constructor|].
  split; [apply Hp; vm_compute; repeat constructor|].
  apply Hc. vm_compute. discriminate.
Defined.

(** X20. The session poll of the frontend never rejects, and it answers
    [true] only when an actor is connected, mobile and token are both
    non-empty and the token is the stored session token of the account. So
    through this caller the empty token is never accepted, also for an
    account that is logged out. *)
Theorem checkSessionQuery_sound (actor : option State) (mobile sessionId : list N) :
  exists b,
    Frontend.checkSessionQuery actor mobile sessionId = Some b /\
    (b = true <->
       mobile <> [] /\ sessionId <> [] /\
       exists s, actor = Some s /\ storedSession s mobile = Some sessionId).
Proof.
  unfold Frontend.checkSessionQuery. destruct actor as [s|].
  - destruct (decide (mobile = [])) as [->|Hm].
    { exists false. split; [reflexivity|]. split; [discriminate|].
      intros (H & _). congruence. }
    destruct (decide (sessionId = [])) as [->|Hs].
    { exists false. rewrite (bool_decide_eq_false_2 _ Hm). split; [reflexivity|].
      split; [discriminate|]. intros (_ & H & _). congruence. }
    rewrite (bool_decide_eq_false_2 _ Hm), (bool_decide_eq_false_2 _ Hs).
    cbn [orb]. rewrite checkSessionValid_stored. eexists. split; [reflexivity|].
    rewrite bool_decide_eq_true. split.
    + intros E. repeat split; try assumption. eauto.
    + intros (_ & _ & s' & [= <-] & E). exact E.
  - exists false. split; [reflexivity|]. split; [discriminate|].
    intros (_ & _ & s & [=] & _).
Qed.

Lemma checkSessionQuery_sound_witness :
  Frontend.checkSessionQuery (Some s_registered) mobileA [] = Some false /\
  Frontend.checkSessionQuery (Some s_login_5) mobileA token5 = Some true.
Proof.
  destruct (checkSessionQuery_sound (Some s_registered) mobileA []) as (b1 & E1 & H1).
  destruct (checkSessionQuery_sound (Some s_login_5) mobileA token5) as (b2 & E2 & H2).
  split.
  - rewrite E1. destruct b1; [|reflexivity].
    destruct (proj1 H1 eq_refl) as (_ & Hne & _). exfalso. apply Hne. reflexivity.
  - rewrite E2. f_equal. apply H2. split; [vm_compute; discriminate|].
    split; [vm_compute; discriminate|].
    exists s_login_5. split; [reflexivity|vm_compute; reflexivity].
Defined.

(** X21. The frontend decides on the admin panel by the mobile of the
    session alone, the actor by the role of the caller. When the well-known
    mobile is not indexed yet, any caller can register it; the login that
    follows yields a session that [AppRouter] routes to the admin panel,
    while the actor gives that caller no [admin] capability and traps on
    the admin methods. *)
Theorem admin_panel_by_mobile (s : State) (caller : Principal) (name pw : Text)
    (now t : Z) (session : option Frontend.SessionData) :
  mobileToUser s !! adminMobile = None ->
  let s1 := run (registerUser caller name adminMobile pw) s in
  let s2 := run (login now adminMobile pw) s1 in
  let session' := Frontend.handleLogin (Some s1) now adminMobile pw session in
  Frontend.isAdmin session' = true /\
  Frontend.AppRouter session' = Frontend.AdminPanel /\
  AccessControl.hasPermission (accessControlState s2) caller admin = false /\
  seedData caller t s2 = Trap "Unauthorized: Only admins can seed data" /\
  (forall title content tm,
     addPassage caller t title content tm s2
       = Trap "Unauthorized: Only admins can add passages").
Proof.
  intros Hi s1 s2 session'.
  pose proof (registerUser_fresh caller s name adminMobile pw Hi) as Hreg.
  assert (Hs1 : s1 = {| userProfiles :=
                          <[caller := UserProfile.mk name adminMobile (hashPassword pw) []]>
                            (userProfiles s);
                        mobileToUser := <[adminMobile := caller]> (mobileToUser s);
                        passages := passages s;
                        testResults := testResults s;
                        accessControlState := <[caller := user]> (accessControlState s) |}).
  { subst s1. unfold run. rewrite Hreg. reflexivity. }
  assert (Hlogin : login now adminMobile pw s1 =
            Ok (mkLoginOk name adminMobile (hashPassword (adminMobile ++ Int_toText now)))
               (set_userProfiles
                  <[caller := UserProfile.with_sessionId
                                (UserProfile.mk name adminMobile (hashPassword pw) [])
                                (hashPassword (adminMobile ++ Int_toText now))]> s1)).
  { apply (login_ok now s1 adminMobile pw caller
             (UserProfile.mk name adminMobile (hashPassword pw) []));
      [rewrite Hs1; apply lookup_insert_eq..|reflexivity]. }
  assert (Hsess : session' = Some (Frontend.mkSession name adminMobile
                                     (hashPassword (adminMobile ++ Int_toText now)))).
  { subst session'. unfold Frontend.handleLogin. rewrite Hlogin. reflexivity. }
  assert (Hadm : Frontend.isAdmin session' = true).
  { rewrite Hsess. cbn [Frontend.isAdmin Frontend.mobile].
    apply bool_decide_eq_true. reflexivity. }
  assert (Hperm : AccessControl.hasPermission (accessControlState s2) caller admin = false).
  { subst s2. unfold run. rewrite Hlogin. acc_simpl. rewrite Hs1. acc_simpl.
    cbn [AccessControl.hasPermission]. unfold AccessControl.isAdmin,
      AccessControl.getUserRole. rewrite lookup_insert_eq. reflexivity. }
  split; [exact Hadm|]. split.
  { unfold Frontend.AppRouter. rewrite Hadm. rewrite Hsess. reflexivity. }
  split; [exact Hperm|]. split.
  - apply seedData_unauthorized, Hperm.
  - intros title content tm. apply addPassage_unauthorized, Hperm.
Qed.

Lemma admin_panel_by_mobile_witness :
  let s1 := run (registerUser bob (text "Bob") adminMobile pw1) s_registered in
  Frontend.AppRouter (Frontend.handleLogin (Some s1) 5 adminMobile pw1 None)
    = Frontend.AdminPanel /\
  seedData bob 6 (run (login 5 adminMobile pw1) s1)
    = Trap "Unauthorized: Only admins can seed data".
Proof.
  destruct (admin_panel_by_mobile s_registered bob (text "Bob") pw1 5 6 None)
    as (_ & Hroute & _ & Hseed & _); [vm_compute; reflexivity|].
  split; [exact Hroute|exact Hseed].
Defined.

(** ** End to end *)

(** X22. Register, then log in. After a successful [registerUser] a login
    with the same mobile and password succeeds at every clock reading and
    returns the registered name and mobile with a non-empty token that is
    accepted at once; a login with a password of a different hash traps
    with the invalid-password message and leaves the state as it is. *)
Theorem register_then_login (s : State) (caller : Principal)
    (name mobile pw pw' : Text) (now : Z) :
  mobileToUser s !! mobile = None ->
  let s1 := run (registerUser caller name mobile pw) s in
  let token := hashPassword (mobile ++ Int_toText now) in
  (exists s2,
     login now mobile pw s1 = Ok (mkLoginOk name mobile token) s2 /\
     token <> [] /\
     checkSessionValid mobile token s2 = Ok true s2) /\
  (hashPassword pw' <> hashPassword pw ->
     login now mobile pw' s1 = Trap "Invalid password" /\
     run (login now mobile pw') s1 = s1).
Proof.
  intros Hi s1 token.
  assert (Hs1 : s1 = {| userProfiles :=
                          <[caller := UserProfile.mk name mobile (hashPassword pw) []]>
                            (userProfiles s);
                        mobileToUser := <[mobile := caller]> (mobileToUser s);
                        passages := passages s;
                        testResults := testResults s;
                        accessControlState := <[caller := user]> (accessControlState s) |}).
  { subst s1. unfold run. rewrite registerUser_fresh by assumption. reflexivity. }
  assert (Hi1 : mobileToUser s1 !! mobile = Some caller)
    by (rewrite Hs1; apply lookup_insert_eq).
  assert (Hp1 : userProfiles s1 !! caller
                = Some (UserProfile.mk name mobile (hashPassword pw) []))
    by (rewrite Hs1; apply lookup_insert_eq).
  split.
  - pose proof (login_ok now s1 mobile pw caller _ Hi1 Hp1 eq_refl) as Hl.
    cbv zeta in Hl. cbn [UserProfile.name UserProfile.mobile] in Hl. fold token in Hl.
    eexists. split; [exact Hl|]. split; [apply derived_nonempty|].
    rewrite checkSessionValid_stored, (login_stores _ _ _ _ _ _ Hl). f_equal.
    apply bool_decide_eq_true. reflexivity.
  - intros Hne. unfold run.
    rewrite (login_bad_password now s1 mobile pw' caller _ Hi1 Hp1)
      by (cbn; congruence).
    auto.
Qed.

Lemma register_then_login_witness :
  (exists s2,
     login 5 mobileA pw1 s_registered
       = Ok (mkLoginOk (text "Alice") mobileA token5) s2) /\
  login 5 mobileA (text "wrong") s_registered = Trap "Invalid password".
Proof.
  destruct (register_then_login initial alice (text "Alice") mobileA pw1 (text "wrong") 5)
    as [(s2 & E & _) Hbad]; [vm_compute; reflexivity|].
  split; [exists s2; exact E|].
  apply Hbad. vm_compute. discriminate.
Defined.

(** X23. Results are readable by every user and are not bound to the
    submitter: when one caller with the [user] capability submits a result
    under any name and mobile, the listing of any other caller with the
    capability contains that result, with the clock reading of the
    submission as its timestamp. *)
Theorem results_visible_to_all_users (s : State) (submitter viewer : Principal)
    (now : Z) (un um pt : Text) (w a mi : N) :
  AccessControl.hasPermission (accessControlState s) submitter user = true ->
  AccessControl.hasPermission (accessControlState s) viewer user = true ->
  exists s1 l,
    submitTestResult submitter now un um pt w a mi s = Ok tt s1 /\
    getTestResults viewer s1 = Ok l s1 /\
    TestResult.mk (hashPassword (um ++ Int_toText now)) un um pt w a mi now ∈ l.
Proof.
  intros Hs Hv. eexists _, _.
  split; [apply submitTestResult_eq, Hs|].
  split; [apply getTestResults_eq, Hv|].
  apply elem_of_sorted_values. eexists. acc_simpl. apply lookup_insert_eq.
Qed.

Lemma results_visible_to_all_users_witness :
  exists s1 l,
    submitTestResult alice 5 (text "Someone") mobileB (text "P") 40 90 3
      (run (registerUser bob (text "Bob") mobileB pw1) s_registered) = Ok tt s1 /\
    getTestResults bob s1 = Ok l s1 /\
    TestResult.mk (hashPassword (mobileB ++ Int_toText 5)) (text "Someone") mobileB
                  (text "P") 40 90 3 5 ∈ l.
Proof.
  apply (results_visible_to_all_users
           (run (registerUser bob (text "Bob") mobileB pw1) s_registered) alice bob);
    vm_compute; reflexivity.
Defined.

(** X24. Result ids are derived, not checked: of two submissions for the
    same mobile that run at the same clock reading, by whichever callers,
    only the second is stored; the store is the one a single submission of
    the second result would give. *)
Theorem submitTestResult_same_instant (s : State) (c1 c2 : Principal) (now : Z)
    (um un1 pt1 un2 pt2 : Text) (w1 a1 mi1 w2 a2 mi2 : N) :
  AccessControl.hasPermission (accessControlState s) c1 user = true ->
  AccessControl.hasPermission (accessControlState s) c2 user = true ->
  run (submitTestResult c2 now un2 um pt2 w2 a2 mi2)
      (run (submitTestResult c1 now un1 um pt1 w1 a1 mi1) s)
  = run (submitTestResult c2 now un2 um pt2 w2 a2 mi2) s.
Proof.
  intros H1 H2. unfold run.
  rewrite (submitTestResult_eq c1) by assumption.
  rewrite !(submitTestResult_eq c2) by assumption.
  unfold set_testResults. acc_simpl. rewrite insert_insert_eq. reflexivity.
Qed.

Lemma submitTestResult_same_instant_witness :
  s_submit_2
  = run (submitTestResult alice 5 (text "Alice") mobileA (text "P2") 55 95 1) s_user.
Proof.
  apply (submitTestResult_same_instant s_user alice alice 5 mobileA
           (text "Alice") (text "P1") (text "Alice") (text "P2") 40 90 3 55 95 1);
    vm_compute; reflexivity.
Defined.

Lemma no_user_no_admin st caller :
  AccessControl.hasPermission st caller user = false ->
  AccessControl.hasPermission st caller admin = false.
Proof.
  cbn [AccessControl.hasPermission]. intros H.
  apply orb_false_iff in H as [_ H]. exact H.
Qed.

(** X25. Among the methods of main.mo, a caller without the [user]
    capability can only register, log in, log out and poll a session: every
    other update method of the actor sent by such a caller leaves the whole
    state as it is, and the three protected queries trap. (The role
    assignment of the authorization mixin is not a method of main.mo and is
    excluded by hypothesis.) *)
Theorem without_user_capability (msg : Message) (s : State) :
  AccessControl.hasPermission (accessControlState s) (msg_caller msg) user = false ->
  ~ mixin_method (msg_call msg) ->
  (open_method (msg_call msg) \/ exec msg s = s) /\
  getCallerUserProfile (msg_caller msg) s
    = Trap "Unauthorized: Only users can view profiles" /\
  getPassages (msg_caller msg) s
    = Trap "Unauthorized: Only users can view passages" /\
  getTestResults (msg_caller msg) s
    = Trap "Unauthorized: Only users can view test results".
Proof.
  destruct msg as [caller now call]. cbn [msg_caller msg_now msg_call].
  intros Hu Hmixin. pose proof (no_user_no_admin _ _ Hu) as Ha.
  split; [|split; [|split]].
  - destruct call; cbn [open_method]; auto; right; unfold exec;
      cbn [msg_caller msg_now msg_call]; unfold run.
    + unfold saveCallerUserProfile. munfold. rewrite Hu. reflexivity.
    + rewrite addPassage_unauthorized by assumption. reflexivity.
    + rewrite updatePassage_unauthorized by assumption. reflexivity.
    + rewrite deletePassage_unauthorized by assumption. reflexivity.
    + rewrite submitTestResult_unauthorized by assumption. reflexivity.
    + rewrite seedData_unauthorized by assumption. reflexivity.
    + rewrite addAdmin_unauthorized by assumption. reflexivity.
    + exfalso. apply Hmixin. exact I.
  - unfold getCallerUserProfile. munfold. rewrite Hu. reflexivity.
  - unfold getPassages. munfold. rewrite Hu. reflexivity.
  - unfold getTestResults. munfold. rewrite Hu. reflexivity.
Qed.

Lemma without_user_capability_witness :
  exec (mkMessage bob 5 (CallSubmitTestResult (text "Bob") mobileB (text "P") 1 2 3))
       s_registered = s_registered /\
  getPassages bob s_registered = Trap "Unauthorized: Only users can view passages".
Proof.
  destruct (without_user_capability
              (mkMessage bob 5 (CallSubmitTestResult (text "Bob") mobileB (text "P") 1 2 3))
              s_registered) as ([[]|E] & _ & Hp & _);
    [vm_compute; reflexivity|simpl; intros []|].
  split; [exact E|exact Hp].
Defined.
